(** * Blogicum: visibility and ownership policy of [blog/views.py]

    A shallow embedding of the view layer of the blog application.  Model
    instances are records, a queryset is the list of its rows in result
    order, [Q] objects are syntax trees evaluated against a row, and every
    view method is a function of the request, the URL keyword arguments and
    the database.  Exceptions raised by a view ([Http404], an uncaught
    [MultipleObjectsReturned]) are the left summand of its result. *)

From Stdlib Require Import ZArith List String Bool Lia.
From Stdlib Require Import Sorting.Sorted Sorting.Permutation.
Import ListNotations.

Local Open Scope string_scope.
Local Open Scope Z_scope.

(** ** Model instances (blog.models)

    Only the columns the views read or write are kept.  A foreign key is
    held as the related instance, the way attribute access ([post.author],
    [instance.post.id]) and joined lookups ([category__is_published])
    present it. *)

Module User.
Record t : Type := mk { pk : Z; username : string }.

(** [Model.__eq__]: two saved instances of one model are equal when their
    primary keys are. *)
Definition eqb (a b : t) : bool := pk a =? pk b.
End User.

Module Category.
Record t : Type := mk { pk : Z; slug : string; is_published : bool }.
End Category.

Module Post.
Record t : Type := mk {
  pk : Z;
  author : User.t;
  category : Category.t;
  pub_date : Z;
  is_published : bool;
  (* set by [annotate(comment_count=Count("comments"))], absent before *)
  comment_count : option nat
}.

Definition id := pk.
End Post.

Module Comment.
Record t : Type := mk {
  pk : Z;
  text : string;
  author : User.t;
  post : Post.t;
  created_at : Z
}.
End Comment.

(** The tables behind the four default managers. *)
Record DB : Type := mkDB {
  User_objects : list User.t;
  Category_objects : list Category.t;
  Post_objects : list Post.t;
  Comment_objects : list Comment.t
}.

(** ** The requesting user

    [request.user] is either the [AnonymousUser] singleton or a saved
    [User].  Both are truthy objects; only the latter is authenticated. *)

Inductive RequestUser : Type :=
| AnonymousUser
| AuthUser (u : User.t).

Definition is_authenticated (user : RequestUser) : bool :=
  match user with
  | AnonymousUser => false
  | AuthUser _ => true
  end.

(** [instance.author != request.user]: an [AnonymousUser] is never equal to
    a model instance. *)
Definition author_ne (a : User.t) (user : RequestUser) : bool :=
  match user with
  | AnonymousUser => true
  | AuthUser u => negb (User.eqb a u)
  end.

(** ** Field lookups and [Q] objects *)

Module Lookup.
Inductive t : Type :=
| author (u : User.t)                (* author=user *)
| is_published (b : bool)            (* is_published=True *)
| pub_date__lte (now : Z)            (* pub_date__lte=... *)
| category__is_published (b : bool)  (* category__is_published=True *)
| category__slug (s : string)        (* category__slug=... *)
| author__username (s : string).     (* author__username=... *)

Definition eval (l : t) (p : Post.t) : bool :=
  match l with
  | author u => User.eqb (Post.author p) u
  | is_published b => Bool.eqb (Post.is_published p) b
  | pub_date__lte now => Post.pub_date p <=? now
  | category__is_published b =>
      Bool.eqb (Category.is_published (Post.category p)) b
  | category__slug s => String.eqb (Category.slug (Post.category p)) s
  | author__username s => String.eqb (User.username (Post.author p)) s
  end.
End Lookup.

Inductive Q : Type :=
| Q_ (l : Lookup.t)
| Q_and (a b : Q)
| Q_or (a b : Q).

Declare Scope Q_scope.
Delimit Scope Q_scope with Q.
Bind Scope Q_scope with Q.
(* Python: [&] binds tighter than [|], both associate to the left. *)
Notation "a .& b" := (Q_and a b) (at level 40, left associativity) : Q_scope.
Notation "a .| b" := (Q_or a b) (at level 50, left associativity) : Q_scope.

Fixpoint Q_eval (q : Q) (p : Post.t) : bool :=
  match q with
  | Q_ l => Lookup.eval l p
  | Q_and a b => Q_eval a p && Q_eval b p
  | Q_or a b => Q_eval a p || Q_eval b p
  end.

(** ** Querysets *)

Definition QuerySet : Type := list Post.t.

Module QS.
(** [queryset.filter(q)] *)
Definition filter (q : Q) (queryset : QuerySet) : QuerySet :=
  List.filter (Q_eval q) queryset.

(** [queryset.filter(k1=v1, k2=v2, ...)]: the keyword lookups are
    conjoined. *)
Definition filter_kw (kw : list Lookup.t) (queryset : QuerySet) : QuerySet :=
  List.filter (fun p => forallb (fun l => Lookup.eval l p) kw) queryset.

(** [Count("comments")] for one post: the comments whose [post] is it. *)
Definition count_comments (db : DB) (p : Post.t) : nat :=
  List.length
    (List.filter (fun c => Post.pk (Comment.post c) =? Post.pk p)
                 (Comment_objects db)).

(** One row of [queryset.annotate(comment_count=Count("comments"))]: the
    stored columns, and the count.  The rows of the annotated queryset are
    kept in the order of the input; the database fixes no order until
    [order_by] is applied. *)
Definition with_comment_count (db : DB) (p : Post.t) : Post.t :=
  Post.mk (Post.pk p) (Post.author p) (Post.category p)
          (Post.pub_date p) (Post.is_published p)
          (Some (count_comments db p)).

Definition annotate_comment_count (db : DB) (queryset : QuerySet) : QuerySet :=
  List.map (with_comment_count db) queryset.

(** [queryset.order_by("-pub_date")]: descending publication date; rows
    with equal dates keep their relative order. *)
Fixpoint insert_desc (p : Post.t) (sorted : QuerySet) : QuerySet :=
  match sorted with
  | [] => [p]
  | q :: rest =>
      if Post.pub_date q <=? Post.pub_date p
      then p :: q :: rest
      else q :: insert_desc p rest
  end.

Definition order_by_pub_date_desc (queryset : QuerySet) : QuerySet :=
  List.fold_right insert_desc [] queryset.
End QS.

(** ** Module-level helpers of views.py *)

Definition get_annotated_posts (db : DB) (queryset : QuerySet) : QuerySet :=
  QS.annotate_comment_count db queryset.

(** [current_time] is the value [timezone.now()] returned. *)
Definition get_published_posts (queryset : QuerySet) (current_time : Z)
  : QuerySet :=
  QS.filter
    (Q_ (Lookup.is_published true) .&
     Q_ (Lookup.pub_date__lte current_time) .&
     Q_ (Lookup.category__is_published true))%Q
    queryset.

(** [user] defaults to [None]; [user and user.is_authenticated] holds for a
    saved user only. *)
Definition get_visible_posts (queryset : QuerySet) (user : option RequestUser)
                             (now : Z) : QuerySet :=
  match user with
  | Some (AuthUser u) =>
      QS.filter
        (Q_ (Lookup.author u) .|
         Q_ (Lookup.is_published true) .&
         Q_ (Lookup.pub_date__lte now) .&
         Q_ (Lookup.category__is_published true))%Q
        queryset
  | Some AnonymousUser | None => get_published_posts queryset now
  end.

(** ** Requests, responses and exceptions (django.http, django.shortcuts) *)

Inductive Exception : Type :=
| Http404
| PermissionDenied
| MultipleObjectsReturned
| ValueError.

(** A computation that returns or raises. *)
Definition result (A : Type) : Type := (Exception + A)%type.

Definition ret {A : Type} (a : A) : result A := inr a.
Definition raise {A : Type} (e : Exception) : result A := inl e.
Definition bind {A B : Type} (m : result A) (k : A -> result B) : result B :=
  match m with
  | inl e => inl e
  | inr a => k a
  end.

Notation "x <- m ;; k" := (bind m (fun x => k))
  (at level 61, m at next level, right associativity).

(** Named URLs of the project, as [reverse]/[redirect] resolve them. *)
Inductive URL : Type :=
| blog_index                          (* "blog:index" *)
| blog_post_detail (post_id : Z)      (* "blog:post_detail" *)
| blog_profile (username : string)    (* "blog:profile" *)
| login.                              (* "login" *)

Inductive Method : Type := GET | POST.

(** The [page] query parameter as [paginate_queryset] reads it: missing or
    empty, an integer literal, the word [last], or anything else. *)
Inductive PageParam : Type :=
| page_absent
| page_int (n : Z)
| page_last
| page_other.

(** Submitted form fields. *)
Definition QueryDict : Type := list (string * string).

Record Request : Type := mkRequest {
  user : RequestUser;
  method : Method;
  GET_page : PageParam;
  POST_data : QueryDict
}.

(** A page of a paginator: the rows it shows and its 1-based number. *)
Record Page : Type := mkPage {
  object_list : QuerySet;
  number : Z
}.

Inductive FormState : Type :=
| unbound
| bound (data : QueryDict).

(** Template contexts are dictionaries from names to values. *)
Inductive ContextValue : Type :=
| V_post (p : Post.t)
| V_posts (ps : QuerySet)
| V_page (pg : Page)
| V_bool (b : bool)
| V_form (f : FormState)
| V_comments (cs : list Comment.t)
| V_category (c : Category.t)
| V_user (u : User.t).

Definition Context : Type := list (string * ContextValue).

(** [context[key] = value] *)
Definition ctx_set (key : string) (value : ContextValue) (context : Context)
  : Context :=
  (key, value) :: List.filter (fun kv => negb (String.eqb (fst kv) key)) context.

Inductive HttpResponse : Type :=
| TemplateResponse (template_name : string) (context : Context)
| HttpResponseRedirect (to : URL)
| HttpResponseNotAllowed.

Definition redirect (to : URL) : HttpResponse := HttpResponseRedirect to.

(** [get_object_or_404(Model, lookups)], that is [Model.objects.get]: no
    match raises [Http404]; more than one match raises
    [MultipleObjectsReturned], which is not caught. *)
Definition get_object_or_404 {A : Type} (objects : list A) (lookups : A -> bool)
  : result A :=
  match List.filter lookups objects with
  | [] => raise Http404
  | [obj] => ret obj
  | _ :: _ :: _ => raise MultipleObjectsReturned
  end.

(** ** Generic class-based views (django.views.generic), as far as the
    views below rely on them *)

Module Paginator.
(** [Paginator(object_list, per_page)] with the defaults [orphans=0] and
    [allow_empty_first_page=True]. *)
Definition count (queryset : QuerySet) : Z := Z.of_nat (List.length queryset).

Definition num_pages (queryset : QuerySet) (per_page : Z) : Z :=
  let hits := Z.max 1 (count queryset) in
  (hits + per_page - 1) / per_page.

(** [object_list[bottom:top]] *)
Definition slice (queryset : QuerySet) (bottom top : Z) : QuerySet :=
  List.firstn (Z.to_nat (top - bottom)) (List.skipn (Z.to_nat bottom) queryset).

(** [page(number)]: [None] stands for the [EmptyPage] exception. *)
Definition page (queryset : QuerySet) (per_page : Z) (number : Z)
  : option Page :=
  if number <? 1 then None
  else if num_pages queryset per_page <? number then None
  else
    let bottom := (number - 1) * per_page in
    let top := bottom + per_page in
    let top := if count queryset <=? top then count queryset else top in
    Some (mkPage (slice queryset bottom top) number).
End Paginator.

Module MultipleObjectMixin.
(** [paginate_queryset]: a page that is neither an integer nor [last], or
    that the paginator rejects, ends in [Http404]. *)
Definition paginate_queryset (request : Request) (queryset : QuerySet)
                             (page_size : Z) : result Page :=
  page_number <-
    match GET_page request with
    | page_absent => ret 1
    | page_int n => ret n
    | page_last => ret (Paginator.num_pages queryset page_size)
    | page_other => raise Http404
    end ;;
  match Paginator.page queryset page_size page_number with
  | Some pg => ret pg
  | None => raise Http404
  end.

(** [page.has_other_pages()]: there is a previous or a next page. *)
Definition has_other_pages (queryset : QuerySet) (page_size : Z) (pg : Page)
  : bool :=
  (1 <? number pg) || (number pg <? Paginator.num_pages queryset page_size).

(** [get_context_data] of a paginated list view. *)
Definition get_context_data (request : Request) (paginate_by : Z)
                            (queryset : QuerySet) : result Context :=
  pg <- paginate_queryset request queryset paginate_by ;;
  ret [("page_obj", V_page pg);
       ("is_paginated", V_bool (has_other_pages queryset paginate_by pg));
       ("object_list", V_posts (object_list pg))].
End MultipleObjectMixin.

Module ListView.
(** [View.dispatch] of a list view: only [get] is defined;
    [BaseListView.get] evaluates [get_queryset], then [get_context_data],
    then renders. *)
Definition dispatch (request : Request) (template_name : string)
                    (get_queryset : QuerySet)
                    (get_context_data : QuerySet -> result Context)
  : result HttpResponse :=
  match method request with
  | GET =>
      let object_list := get_queryset in
      context <- get_context_data object_list ;;
      ret (TemplateResponse template_name context)
  | POST => ret HttpResponseNotAllowed
  end.
End ListView.

Module LoginRequiredMixin.
(** [dispatch]: an unauthenticated request is sent to [login_url]. *)
Definition dispatch {A : Type} (request : Request) (login_url : URL)
                    (db : A) (super_dispatch : result (HttpResponse * A))
  : result (HttpResponse * A) :=
  if is_authenticated (user request)
  then super_dispatch
  else ret (redirect login_url, db).
End LoginRequiredMixin.

Module DetailView.
(** [View.dispatch] of a detail view: only [get] is defined;
    [BaseDetailView.get] fetches the object and renders it. *)
Definition dispatch {A : Type} (request : Request) (template_name : string)
                    (get_object : result A)
                    (get_context_data : A -> Context)
  : result HttpResponse :=
  match method request with
  | GET =>
      object <- get_object ;;
      ret (TemplateResponse template_name (get_context_data object))
  | POST => ret HttpResponseNotAllowed
  end.
End DetailView.

(** ** The views of views.py *)

Module PostListView.
Definition paginate_by : Z := 10.
Definition template_name : string := "blog/post_list.html".

(** [now] is the value of the [timezone.now()] call made inside
    [get_visible_posts]. *)
Definition get_queryset (request : Request) (now : Z) (db : DB) : QuerySet :=
  let queryset := Post_objects db in
  let queryset := get_annotated_posts db queryset in
  let queryset := get_visible_posts queryset (Some (user request)) now in
  QS.order_by_pub_date_desc queryset.

Definition get_context_data (request : Request) (object_list : QuerySet)
  : result Context :=
  MultipleObjectMixin.get_context_data request paginate_by object_list.

Definition dispatch (request : Request) (now : Z) (db : DB)
  : result HttpResponse :=
  ListView.dispatch request template_name
    (get_queryset request now db) (get_context_data request).
End PostListView.

Module HomePageView.
Definition template_name : string := "blog/index.html".

(** [now] is read by the inherited [get_queryset], [now'] by the filter
    applied here: two calls of [timezone.now()] in one request. *)
Definition get_queryset (request : Request) (now now' : Z) (db : DB)
  : QuerySet :=
  let queryset := PostListView.get_queryset request now db in
  QS.filter_kw
    [Lookup.pub_date__lte now';
     Lookup.is_published true;
     Lookup.category__is_published true]
    queryset.

Definition dispatch (request : Request) (now now' : Z) (db : DB)
  : result HttpResponse :=
  ListView.dispatch request template_name
    (get_queryset request now now' db)
    (PostListView.get_context_data request).
End HomePageView.

Module PostDetailView.
Definition template_name : string := "blog/post_detail.html".

(** [SingleObjectMixin.get_object] with [pk_url_kwarg = 'post_id']. *)
Definition get_object (post_id : Z) (db : DB) : result Post.t :=
  get_object_or_404 (Post_objects db) (fun p => Post.pk p =? post_id).

(** [self.object.comments.select_related("author")] *)
Definition comments (db : DB) (object : Post.t) : list Comment.t :=
  List.filter (fun c => Post.pk (Comment.post c) =? Post.pk object)
              (Comment_objects db).

Definition get_context_data (db : DB) (object : Post.t) : Context :=
  let context := [("object", V_post object); ("post", V_post object)] in
  let context := ctx_set "form" (V_form unbound) context in
  let context := ctx_set "comments" (V_comments (comments db object)) context in
  context.

Definition dispatch (request : Request) (post_id : Z) (db : DB)
  : result HttpResponse :=
  post <- get_object_or_404 (Post_objects db) (fun p => Post.pk p =? post_id) ;;
  if negb (Post.is_published post) && author_ne (Post.author post) (user request)
  then raise Http404
  else DetailView.dispatch request template_name
         (get_object post_id db) (get_context_data db).
End PostDetailView.

Module CategoryView.
Definition template_name : string := "blog/category.html".

Definition get_queryset (request : Request) (category_slug : string)
                        (now now' : Z) (db : DB) : QuerySet :=
  let queryset := PostListView.get_queryset request now db in
  QS.filter_kw
    [Lookup.pub_date__lte now';
     Lookup.is_published true;
     Lookup.category__slug category_slug]
    queryset.

Definition get_context_data (request : Request) (category_slug : string)
                            (db : DB) (object_list : QuerySet)
  : result Context :=
  context <- PostListView.get_context_data request object_list ;;
  category <-
    get_object_or_404 (Category_objects db)
      (fun c => String.eqb (Category.slug c) category_slug
                && Bool.eqb (Category.is_published c) true) ;;
  ret (ctx_set "category" (V_category category) context).

Definition dispatch (request : Request) (category_slug : string)
                    (now now' : Z) (db : DB) : result HttpResponse :=
  ListView.dispatch request template_name
    (get_queryset request category_slug now now' db)
    (get_context_data request category_slug db).
End CategoryView.

Module ProfileView.
Definition template_name : string := "blog/profile.html".

Definition get_queryset (request : Request) (username : string)
                        (now : Z) (db : DB) : QuerySet :=
  let queryset := PostListView.get_queryset request now db in
  QS.filter_kw [Lookup.author__username username] queryset.

Definition get_context_data (request : Request) (username : string)
                            (db : DB) (object_list : QuerySet)
  : result Context :=
  context <- PostListView.get_context_data request object_list ;;
  profile <-
    get_object_or_404 (User_objects db)
      (fun u => String.eqb (User.username u) username) ;;
  ret (ctx_set "profile" (V_user profile) context).

Definition dispatch (request : Request) (username : string)
                    (now : Z) (db : DB) : result HttpResponse :=
  ListView.dispatch request template_name
    (get_queryset request username now db)
    (get_context_data request username db).
End ProfileView.

(** A view that may write: the response comes with the database it leaves. *)
Definition Mutation : Type := result (HttpResponse * DB).

Module PostUpdateView.
Definition login_url : URL := login.

Section Dispatch.
(** [UpdateView.dispatch] for [model = Post] and [form_class = PostForm]:
    the generic form handling this class inherits. *)
Variable UpdateView_dispatch : Request -> Z -> DB -> Mutation.

Definition dispatch (request : Request) (post_id : Z) (db : DB) : Mutation :=
  instance <-
    get_object_or_404 (Post_objects db) (fun p => Post.pk p =? post_id) ;;
  if author_ne (Post.author instance) (user request)
  then ret (redirect (blog_post_detail (Post.pk instance)), db)
  else LoginRequiredMixin.dispatch request login_url db
         (UpdateView_dispatch request post_id db).
End Dispatch.
End PostUpdateView.

Module PostDeleteView.
Definition login_url : URL := login.
Definition success_url : URL := blog_index.

Section Dispatch.
(** [DeleteView.dispatch] for [model = Post]. *)
Variable DeleteView_dispatch : Request -> Z -> DB -> Mutation.

Definition dispatch (request : Request) (post_id : Z) (db : DB) : Mutation :=
  instance <-
    get_object_or_404 (Post_objects db) (fun p => Post.pk p =? post_id) ;;
  if author_ne (Post.author instance) (user request)
  then ret (redirect blog_index, db)
  else LoginRequiredMixin.dispatch request login_url db
         (DeleteView_dispatch request post_id db).
End Dispatch.
End PostDeleteView.

Module CommentView.
Definition login_url : URL := login.
End CommentView.

(** [form.save()] of a new comment: the row gets a primary key no stored
    row has and its creation time, and is appended to the table.  Which
    unused key it gets is the database's choice; here it is the one after
    the largest stored. *)
Definition next_pk (pks : list Z) : Z := 1 + List.fold_right Z.max 0 pks.

Definition Comment_save (db : DB) (text : string) (author : User.t)
                        (post : Post.t) (now : Z) : Comment.t * DB :=
  let object :=
    Comment.mk (next_pk (List.map Comment.pk (Comment_objects db)))
               text author post now in
  (object,
   mkDB (User_objects db) (Category_objects db) (Post_objects db)
        (Comment_objects db ++ [object])).

Module CommentCreateView.
Definition template_name : string := "blog/comment_form.html".

Section Form.
(** [CommentForm(request.POST)]: [Some text] when [is_valid()] holds,
    with the cleaned text of the comment; [None] when it does not. *)
Variable CommentForm_clean : QueryDict -> option string.

(** [_post] is [self._post], which [dispatch] sets before anything else
    runs. *)
Definition get_success_url (_post : Post.t) : URL :=
  blog_post_detail (Post.pk _post).

(** Assigning anything but a [User] to [form.instance.author] raises
    [ValueError]. *)
Definition form_valid (request : Request) (_post : Post.t) (text : string)
                      (now : Z) (db : DB) : Mutation :=
  match user request with
  | AuthUser u =>
      let (_, db') := Comment_save db text u _post now in
      ret (redirect (get_success_url _post), db')
  | AnonymousUser => raise ValueError
  end.

Definition form_invalid (request : Request) (db : DB) : Mutation :=
  ret (TemplateResponse template_name
         [("form", V_form (bound (POST_data request)))], db).

(** [ProcessFormView.get] and [ProcessFormView.post] *)
Definition get (db : DB) : Mutation :=
  ret (TemplateResponse template_name [("form", V_form unbound)], db).

Definition post (request : Request) (_post : Post.t) (now : Z) (db : DB)
  : Mutation :=
  match CommentForm_clean (POST_data request) with
  | Some text => form_valid request _post text now db
  | None => form_invalid request db
  end.

Definition dispatch (request : Request) (post_id : Z) (now : Z) (db : DB)
  : Mutation :=
  _post <-
    get_object_or_404 (Post_objects db) (fun p => Post.pk p =? post_id) ;;
  LoginRequiredMixin.dispatch request CommentView.login_url db
    match method request with
    | GET => get db
    | POST => post request _post now db
    end.
End Form.

(** [get_object] reads the URL keyword arguments, a dictionary:
    [self.kwargs.get("pk") or self.kwargs.get("comment_id")].  A missing key
    gives [None]; [or] takes its right operand when the left one is [None]
    or zero.  A lookup [pk=None] matches no row. *)
Fixpoint kwargs_get (kwargs : list (string * Z)) (key : string) : option Z :=
  match kwargs with
  | [] => None
  | (k, v) :: rest => if String.eqb k key then Some v else kwargs_get rest key
  end.

Definition py_or (a b : option Z) : option Z :=
  match a with
  | None => b
  | Some n => if n =? 0 then b else a
  end.

Definition get_object (kwargs : list (string * Z)) (db : DB)
  : result Comment.t :=
  let pk := py_or (kwargs_get kwargs "pk") (kwargs_get kwargs "comment_id") in
  get_object_or_404 (Comment_objects db)
    (fun c => match pk with
              | Some n => Comment.pk c =? n
              | None => false
              end).
End CommentCreateView.

Module CommentChangeView.
Definition template_name : string := "blog/comment.html".

Section Dispatch.
(** The generic view the concrete subclass mixes in after
    [LoginRequiredMixin]: [UpdateView] or [DeleteView]. *)
Variable generic_dispatch : Request -> Z -> DB -> Mutation.

Definition dispatch (request : Request) (comment_id : Z) (db : DB)
  : Mutation :=
  instance <-
    get_object_or_404 (Comment_objects db)
      (fun c => Comment.pk c =? comment_id) ;;
  if author_ne (Comment.author instance) (user request)
  then ret (redirect (blog_post_detail (Post.id (Comment.post instance))), db)
  else LoginRequiredMixin.dispatch request CommentView.login_url db
         (generic_dispatch request comment_id db).
End Dispatch.
End CommentChangeView.

Module CommentUpdateView.
Definition get_object (comment_id : Z) (db : DB) : result Comment.t :=
  get_object_or_404 (Comment_objects db) (fun c => Comment.pk c =? comment_id).

Definition dispatch (UpdateView_dispatch : Request -> Z -> DB -> Mutation) :=
  CommentChangeView.dispatch UpdateView_dispatch.
End CommentUpdateView.

Module CommentDeleteView.
Definition get_object (comment_id : Z) (db : DB) : result Comment.t :=
  get_object_or_404 (Comment_objects db) (fun c => Comment.pk c =? comment_id).

Definition dispatch (DeleteView_dispatch : Request -> Z -> DB -> Mutation) :=
  CommentChangeView.dispatch DeleteView_dispatch.
End CommentDeleteView.

(** The columns a valid [PostForm] has put on [form.instance]; the author
    is not among them. *)
Record PostFields : Type := mkPostFields {
  f_category : Category.t;
  f_pub_date : Z;
  f_is_published : bool
}.

(** [form.save()] of a new post: the row gets the next primary key and is
    appended to the table. *)
Definition Post_save (db : DB) (fields : PostFields) (author : User.t)
  : Post.t * DB :=
  let object :=
    Post.mk (next_pk (List.map Post.pk (Post_objects db)))
            author (f_category fields) (f_pub_date fields)
            (f_is_published fields) None in
  (object,
   mkDB (User_objects db) (Category_objects db)
        (Post_objects db ++ [object]) (Comment_objects db)).

Module PostCreateView.
Definition login_url : URL := login.
Definition template_name : string := "blog/post_form.html".

Section Form.
(** [PostForm(request.POST)]: [Some fields] when [is_valid()] holds. *)
Variable PostForm_clean : QueryDict -> option PostFields.

(** [self.request.user.username] of the authenticated requester. *)
Definition get_success_url (u : User.t) : URL :=
  blog_profile (User.username u).

Definition form_valid (request : Request) (fields : PostFields) (db : DB)
  : Mutation :=
  match user request with
  | AuthUser u =>
      let (_, db') := Post_save db fields u in
      ret (redirect (get_success_url u), db')
  | AnonymousUser => raise ValueError
  end.

Definition form_invalid (request : Request) (db : DB) : Mutation :=
  ret (TemplateResponse template_name
         [("form", V_form (bound (POST_data request)))], db).

Definition get (db : DB) : Mutation :=
  ret (TemplateResponse template_name [("form", V_form unbound)], db).

Definition post (request : Request) (db : DB) : Mutation :=
  match PostForm_clean (POST_data request) with
  | Some fields => form_valid request fields db
  | None => form_invalid request db
  end.

(** No [dispatch] of its own: [LoginRequiredMixin.dispatch] comes first. *)
Definition dispatch (request : Request) (db : DB) : Mutation :=
  LoginRequiredMixin.dispatch request login_url db
    match method request with
    | GET => get db
    | POST => post request db
    end.
End Form.
End PostCreateView.

Module ProfileUpdateView.
Definition template_name : string := "blog/user.html".
Definition login_url : URL := login.

(** The object edited is the requester. *)
Definition get_object (request : Request) : RequestUser := user request.

Definition get_success_url (u : User.t) : URL :=
  blog_profile (User.username u).

Section Dispatch.
(** [UpdateView.dispatch] for [model = User] and the four [fields]. *)
Variable UpdateView_dispatch : Request -> DB -> Mutation.

Definition dispatch (request : Request) (db : DB) : Mutation :=
  LoginRequiredMixin.dispatch request login_url db
    (UpdateView_dispatch request db).
End Dispatch.
End ProfileUpdateView.

(** ** Vocabulary of the specification *)

(** A post is public at [now]: published, not future-dated, in a published
    category. *)
Definition public_at (now : Z) (p : Post.t) : Prop :=
  Post.is_published p = true
  /\ Post.pub_date p <= now
  /\ Category.is_published (Post.category p) = true.

(** [v] is the author of [p]. *)
Definition authored_by (v : User.t) (p : Post.t) : Prop :=
  User.pk (Post.author p) = User.pk v.

(** The viewer making the request is the author of [p]. *)
Definition viewer_is_author (viewer : RequestUser) (p : Post.t) : Prop :=
  match viewer with
  | AnonymousUser => False
  | AuthUser v => authored_by v p
  end.

(** The visibility predicate of the specification. *)
Definition visible_to (viewer : RequestUser) (now : Z) (p : Post.t) : Prop :=
  viewer_is_author viewer p \/ public_at now p.

(** The single-post gate of the specification: the post is published, or
    the viewer is its author. *)
Definition can_view_detail (p : Post.t) (viewer : RequestUser) : Prop :=
  Post.is_published p = true \/ viewer_is_author viewer p.

(** Descending publication date along a listing. *)
Definition pub_date_desc (queryset : QuerySet) : Prop :=
  StronglySorted (fun p q => Post.pub_date q <= Post.pub_date p) queryset.

(** The posts a rendered context hands to its template. *)
Definition context_posts (context : Context) : list Post.t :=
  List.flat_map
    (fun kv =>
       match snd kv with
       | V_post p => [p]
       | V_posts ps => ps
       | V_page pg => object_list pg
       | _ => []
       end)
    context.

(** The response is a rendered page that shows [p]. *)
Definition renders (response : result HttpResponse) (p : Post.t) : Prop :=
  exists template_name context,
    response = ret (TemplateResponse template_name context)
    /\ In p (context_posts context).

(** Integrity constraints the data store enforces on categories: a post
    refers to a stored category, and slugs are unique. *)
Definition category_fk_valid (db : DB) : Prop :=
  forall p, In p (Post_objects db) -> In (Post.category p) (Category_objects db).

Definition slug_unique (db : DB) : Prop :=
  forall c1 c2,
    In c1 (Category_objects db) -> In c2 (Category_objects db) ->
    Category.slug c1 = Category.slug c2 -> c1 = c2.

(** The pages of a listing, ten rows each: how many there are (one for an
    empty listing), the rows of page [n], and the context a list view hands
    to its template for page [n]. *)
Definition page_count (rows : QuerySet) : Z :=
  (Z.max 1 (Z.of_nat (List.length rows)) + 9) / 10.

Definition page_rows (rows : QuerySet) (n : Z) : QuerySet :=
  List.firstn 10 (List.skipn (10 * (Z.to_nat n - 1)) rows).

Definition page_context (rows : QuerySet) (n : Z) : Context :=
  [("page_obj", V_page (mkPage (page_rows rows n) n));
   ("is_paginated", V_bool ((1 <? n) || (n <? page_count rows)));
   ("object_list", V_posts (page_rows rows n))].

(** The page a request asks for: the first when it names none, the named
    one when the listing has it, the last for [last]; none otherwise. *)
Definition requested_page (param : PageParam) (rows : QuerySet) : option Z :=
  match param with
  | page_absent => Some 1
  | page_int n => if (1 <=? n) && (n <=? page_count rows) then Some n else None
  | page_last => Some (page_count rows)
  | page_other => None
  end.

(** ** Sample data *)

Module Sample.
Definition alice : User.t := User.mk 1 "alice".
Definition bob : User.t := User.mk 2 "bob".

Definition travel : Category.t := Category.mk 1 "travel" true.
Definition hidden : Category.t := Category.mk 2 "hidden" false.

(* the clock of the examples *)
Definition now : Z := 100.

Definition public_post : Post.t := Post.mk 1 alice travel 50 true None.
Definition draft : Post.t := Post.mk 2 alice travel 60 false None.
Definition scheduled : Post.t := Post.mk 3 alice travel 500 true None.
Definition in_hidden : Post.t := Post.mk 4 alice hidden 70 true None.
Definition bobs_post : Post.t := Post.mk 5 bob travel 80 true None.

Definition first_comment : Comment.t :=
  Comment.mk 1 "nice" bob public_post 90.

Definition db : DB :=
  mkDB [alice; bob] [travel; hidden]
       [public_post; draft; scheduled; in_hidden; bobs_post]
       [first_comment].

Definition as_user (u : RequestUser) (m : Method) (pg : PageParam)
  : Request :=
  mkRequest u m pg [].

(** Twenty-five public posts of [alice], dated 1 to 25. *)
Definition many_posts : list Post.t :=
  List.map (fun n => Post.mk (Z.of_nat n) alice travel (Z.of_nat n) true None)
           (List.seq 1 25).

Definition big_db : DB := mkDB [alice; bob] [travel; hidden] many_posts [].
End Sample.

(** * Properties *)

(** ** Lookups against the vocabulary *)

Section Reflection.
Variables (now : Z) (p : Post.t).

Lemma eqb_true_r (b : bool) : Bool.eqb b true = b.
Proof. destruct b; reflexivity. Qed.

Lemma public_Q_spec :
  Q_eval (Q_ (Lookup.is_published true) .&
          Q_ (Lookup.pub_date__lte now) .&
          Q_ (Lookup.category__is_published true))%Q p = true
  <-> public_at now p.
Proof.
  unfold public_at; simpl.
  rewrite !eqb_true_r, !andb_true_iff, Z.leb_le; tauto.
Qed.

Lemma author_lookup_spec (v : User.t) :
  Lookup.eval (Lookup.author v) p = true <-> authored_by v p.
Proof. unfold authored_by; simpl; unfold User.eqb; apply Z.eqb_eq. Qed.

Lemma visible_Q_spec (v : User.t) :
  Q_eval (Q_ (Lookup.author v) .|
          Q_ (Lookup.is_published true) .&
          Q_ (Lookup.pub_date__lte now) .&
          Q_ (Lookup.category__is_published true))%Q p = true
  <-> authored_by v p \/ public_at now p.
Proof.
  change (Q_eval (Q_ (Lookup.author v)) p
          || Q_eval (Q_ (Lookup.is_published true) .&
                     Q_ (Lookup.pub_date__lte now) .&
                     Q_ (Lookup.category__is_published true))%Q p = true
          <-> authored_by v p \/ public_at now p).
  rewrite orb_true_iff, public_Q_spec.
  change (Q_eval (Q_ (Lookup.author v)) p) with (Lookup.eval (Lookup.author v) p).
  rewrite author_lookup_spec; tauto.
Qed.

Lemma public_kw_spec :
  forallb (fun l => Lookup.eval l p)
          [Lookup.pub_date__lte now;
           Lookup.is_published true;
           Lookup.category__is_published true] = true
  <-> public_at now p.
Proof.
  unfold public_at; simpl.
  rewrite !eqb_true_r, !andb_true_iff, Z.leb_le; tauto.
Qed.
End Reflection.

Lemma in_get_published_posts (queryset : QuerySet) (now : Z) (p : Post.t) :
  In p (get_published_posts queryset now) <-> In p queryset /\ public_at now p.
Proof.
  unfold get_published_posts, QS.filter.
  rewrite filter_In, public_Q_spec; tauto.
Qed.

Lemma in_get_visible_posts (queryset : QuerySet) (viewer : RequestUser)
                           (now : Z) (p : Post.t) :
  In p (get_visible_posts queryset (Some viewer) now)
  <-> In p queryset /\ visible_to viewer now p.
Proof.
  destruct viewer as [|v]; unfold visible_to; simpl.
  - rewrite in_get_published_posts; tauto.
  - unfold QS.filter. rewrite filter_In, visible_Q_spec; tauto.
Qed.

(** ** The visibility filter *)

(** C1.  For an authenticated viewer [v], a candidate post is returned
    exactly when [v] is its author or it is public (published, not
    future-dated, category published); the rows keep their order and
    multiplicity; and a post of [v] is returned whatever its publication
    flags are. *)
Theorem visible_posts_authenticated
        (v : User.t) (queryset : QuerySet) (now : Z) :
  (forall p,
      In p (get_visible_posts queryset (Some (AuthUser v)) now)
      <-> In p queryset /\ (authored_by v p \/ public_at now p))
  /\ (exists keep : Post.t -> bool,
         get_visible_posts queryset (Some (AuthUser v)) now
         = List.filter keep queryset
         /\ forall p, keep p = true <-> authored_by v p \/ public_at now p)
  /\ (forall p, In p queryset -> authored_by v p ->
                In p (get_visible_posts queryset (Some (AuthUser v)) now)).
Proof.
  split; [|split].
  - intro p. apply (in_get_visible_posts queryset (AuthUser v)).
  - eexists; split; [reflexivity|].
    intro p; apply visible_Q_spec.
  - intros p Hin Hauth.
    apply (in_get_visible_posts queryset (AuthUser v)).
    split; [assumption | left; exact Hauth].
Qed.

Lemma visible_posts_authenticated_witness :
  In Sample.draft
     (get_visible_posts (Post_objects Sample.db)
                        (Some (AuthUser Sample.alice)) Sample.now)
  /\ ~ In Sample.draft
       (get_visible_posts (Post_objects Sample.db)
                          (Some (AuthUser Sample.bob)) Sample.now).
Proof.
  split.
  - apply (proj2 (proj2 (visible_posts_authenticated
                           Sample.alice (Post_objects Sample.db) Sample.now))).
    + simpl; tauto.
    + reflexivity.
  - intro H.
    apply (proj1 (visible_posts_authenticated
                    Sample.bob (Post_objects Sample.db) Sample.now)) in H.
    destruct H as [_ [H | [H _]]]; discriminate H.
Defined.

(** C2.  For an anonymous viewer (the [AnonymousUser] of the request, or no
    user at all) the filter returns exactly the public candidates, as
    [get_published_posts] does. *)
Theorem visible_posts_anonymous (queryset : QuerySet) (now : Z) :
  (forall p,
      In p (get_visible_posts queryset (Some AnonymousUser) now)
      <-> In p queryset /\ public_at now p)
  /\ (forall p,
         In p (get_visible_posts queryset None now)
         <-> In p queryset /\ public_at now p)
  /\ (exists keep : Post.t -> bool,
         get_visible_posts queryset (Some AnonymousUser) now
         = List.filter keep queryset
         /\ get_visible_posts queryset None now = List.filter keep queryset
         /\ forall p, keep p = true <-> public_at now p).
Proof.
  split; [|split].
  - intro p. apply in_get_published_posts.
  - intro p. apply in_get_published_posts.
  - eexists; split; [reflexivity | split; [reflexivity|]].
    intro p; apply public_Q_spec.
Qed.

Lemma visible_posts_anonymous_witness :
  In Sample.public_post
     (get_visible_posts (Post_objects Sample.db) (Some AnonymousUser) Sample.now)
  /\ ~ In Sample.in_hidden
       (get_visible_posts (Post_objects Sample.db) None Sample.now).
Proof.
  split.
  - apply (proj1 (visible_posts_anonymous (Post_objects Sample.db) Sample.now)).
    split; [simpl; tauto|].
    unfold public_at, Sample.now; simpl; repeat split; lia.
  - intro H.
    apply (proj1 (proj2 (visible_posts_anonymous
                           (Post_objects Sample.db) Sample.now))) in H.
    destruct H as [_ [_ [_ H]]]; discriminate H.
Defined.

(** C10.  Authenticating never removes a post: whatever the anonymous
    filter returns, the visibility filter returns for every viewer. *)
Theorem visible_posts_monotone
        (queryset : QuerySet) (user : option RequestUser) (now : Z)
        (p : Post.t) :
  In p (get_published_posts queryset now) ->
  In p (get_visible_posts queryset user now).
Proof.
  intro H.
  destruct user as [viewer|]; [|exact H].
  apply in_get_published_posts in H.
  apply in_get_visible_posts.
  unfold visible_to; tauto.
Qed.

Lemma visible_posts_monotone_witness :
  In Sample.bobs_post
     (get_visible_posts (Post_objects Sample.db)
                        (Some (AuthUser Sample.alice)) Sample.now).
Proof.
  apply visible_posts_monotone.
  vm_compute; tauto.
Defined.

(** ** Ordering by publication date *)

Section Ordering.
Implicit Types (p q : Post.t) (l : QuerySet) (f : Post.t -> bool).

Lemma in_insert_desc p q l :
  In q (QS.insert_desc p l) <-> q = p \/ In q l.
Proof.
  induction l as [|x l IH]; simpl.
  - intuition.
  - destruct (Post.pub_date x <=? Post.pub_date p); simpl.
    + intuition.
    + rewrite IH; intuition.
Qed.

Lemma in_order_by p l :
  In p (QS.order_by_pub_date_desc l) <-> In p l.
Proof.
  induction l as [|x l IH]; simpl; [tauto|].
  rewrite in_insert_desc, IH; intuition.
Qed.

Lemma insert_desc_Permutation p l :
  Permutation (p :: l) (QS.insert_desc p l).
Proof.
  induction l as [|x l IH]; simpl; [apply Permutation_refl|].
  destruct (Post.pub_date x <=? Post.pub_date p).
  - apply Permutation_refl.
  - eapply perm_trans; [apply perm_swap|].
    apply perm_skip, IH.
Qed.

Lemma order_by_Permutation l :
  Permutation l (QS.order_by_pub_date_desc l).
Proof.
  induction l as [|x l IH]; simpl; [constructor|].
  eapply perm_trans; [apply perm_skip, IH|].
  apply insert_desc_Permutation.
Qed.

Lemma insert_desc_sorted p l :
  pub_date_desc l -> pub_date_desc (QS.insert_desc p l).
Proof.
  unfold pub_date_desc.
  induction l as [|x l IH]; intro Hs; simpl.
  - constructor; constructor.
  - destruct (Z.leb_spec (Post.pub_date x) (Post.pub_date p)) as [Hle|Hgt].
    + constructor; [assumption|].
      inversion Hs as [|? ? _ Hall]; subst.
      constructor; [exact Hle|].
      eapply Forall_impl; [|exact Hall].
      simpl; intros; lia.
    + inversion Hs as [|? ? Hs' Hall]; subst.
      constructor; [apply IH, Hs'|].
      apply Forall_forall; intros y Hy.
      apply in_insert_desc in Hy.
      destruct Hy as [->|Hy]; [lia|].
      rewrite Forall_forall in Hall; apply Hall, Hy.
Qed.

Lemma order_by_sorted l : pub_date_desc (QS.order_by_pub_date_desc l).
Proof.
  induction l as [|x l IH]; simpl.
  - constructor.
  - apply insert_desc_sorted, IH.
Qed.

Lemma filter_sorted f l :
  pub_date_desc l -> pub_date_desc (List.filter f l).
Proof.
  unfold pub_date_desc.
  induction 1 as [|x l Hs IH Hall]; simpl; [constructor|].
  destruct (f x); [|exact IH].
  constructor; [exact IH|].
  rewrite Forall_forall in *.
  intros y Hy; apply filter_In in Hy; apply Hall, Hy.
Qed.

(** An element dated no earlier than anything in [l] goes to the front. *)
Lemma insert_desc_front p l :
  Forall (fun x => Post.pub_date x <= Post.pub_date p) l ->
  QS.insert_desc p l = p :: l.
Proof.
  destruct 1 as [|x l Hx _]; simpl; [reflexivity|].
  apply Z.leb_le in Hx; rewrite Hx; reflexivity.
Qed.

(** Ordering is stable: a listing already in descending order is left as it
    is, rows of equal date included. *)
Lemma order_by_sorted_id l :
  pub_date_desc l -> QS.order_by_pub_date_desc l = l.
Proof.
  unfold pub_date_desc.
  induction 1 as [|x l Hs IH Hall]; simpl; [reflexivity|].
  rewrite IH. apply insert_desc_front, Hall.
Qed.

(** Filtering a sorted listing after an insertion is inserting into the
    filtered listing. *)
Lemma filter_insert_desc f p l :
  pub_date_desc l ->
  List.filter f (QS.insert_desc p l)
  = if f p then QS.insert_desc p (List.filter f l) else List.filter f l.
Proof.
  unfold pub_date_desc.
  induction 1 as [|x l Hs IH Hall]; simpl.
  - destruct (f p); reflexivity.
  - destruct (Z.leb_spec (Post.pub_date x) (Post.pub_date p)) as [Hle|Hgt].
    + simpl. destruct (f p) eqn:Hp; [|reflexivity].
      rewrite insert_desc_front; [reflexivity|].
      assert (Hbelow : Forall (fun y => Post.pub_date y <= Post.pub_date p)
                              (x :: l)).
      { constructor; [exact Hle|].
        eapply Forall_impl; [|exact Hall]. simpl; intros; lia. }
      rewrite Forall_forall in *.
      intros y Hy.
      apply Hbelow.
      change (In y (List.filter f (x :: l))) in Hy.
      apply filter_In in Hy; apply Hy.
    + simpl. rewrite IH.
      destruct (f x), (f p); simpl; try reflexivity.
      destruct (Z.leb_spec (Post.pub_date x) (Post.pub_date p));
        [lia | reflexivity].
Qed.

(** [filter] and [order_by] commute. *)
Lemma filter_order_by f l :
  List.filter f (QS.order_by_pub_date_desc l)
  = QS.order_by_pub_date_desc (List.filter f l).
Proof.
  induction l as [|x l IH]; simpl; [reflexivity|].
  rewrite filter_insert_desc by apply order_by_sorted.
  rewrite IH. destruct (f x); reflexivity.
Qed.
End Ordering.

(** ** Listings *)

Section Listings.
Variables (request : Request) (db : DB).

Lemma in_annotated (queryset : QuerySet) (p : Post.t) :
  In p (get_annotated_posts db queryset)
  <-> exists p0, In p0 queryset /\ p = QS.with_comment_count db p0.
Proof.
  unfold get_annotated_posts, QS.annotate_comment_count.
  rewrite in_map_iff. split; intros [p0 [H1 H2]]; exists p0; auto.
Qed.

Lemma in_filter_kw (kw : list Lookup.t) (queryset : QuerySet) (p : Post.t) :
  In p (QS.filter_kw kw queryset)
  <-> In p queryset /\ forall l, In l kw -> Lookup.eval l p = true.
Proof.
  unfold QS.filter_kw. rewrite filter_In, forallb_forall. tauto.
Qed.

Lemma in_PostListView_queryset (now : Z) (p : Post.t) :
  In p (PostListView.get_queryset request now db)
  <-> In p (get_annotated_posts db (Post_objects db))
      /\ visible_to (user request) now p.
Proof.
  unfold PostListView.get_queryset.
  rewrite in_order_by. apply in_get_visible_posts.
Qed.

Lemma in_HomePageView_queryset (now now' : Z) (p : Post.t) :
  In p (HomePageView.get_queryset request now now' db)
  <-> In p (PostListView.get_queryset request now db) /\ public_at now' p.
Proof.
  unfold HomePageView.get_queryset, QS.filter_kw.
  rewrite filter_In, public_kw_spec. tauto.
Qed.

Lemma in_CategoryView_queryset (category_slug : string) (now now' : Z)
                               (p : Post.t) :
  In p (CategoryView.get_queryset request category_slug now now' db)
  <-> In p (PostListView.get_queryset request now db)
      /\ Post.pub_date p <= now'
      /\ Post.is_published p = true
      /\ Category.slug (Post.category p) = category_slug.
Proof.
  unfold CategoryView.get_queryset, QS.filter_kw.
  rewrite filter_In. simpl.
  rewrite eqb_true_r, !andb_true_iff, Z.leb_le, String.eqb_eq. tauto.
Qed.

Lemma in_ProfileView_queryset (username : string) (now : Z) (p : Post.t) :
  In p (ProfileView.get_queryset request username now db)
  <-> In p (PostListView.get_queryset request now db)
      /\ User.username (Post.author p) = username.
Proof.
  unfold ProfileView.get_queryset, QS.filter_kw.
  rewrite filter_In. simpl.
  rewrite andb_true_r, String.eqb_eq. tauto.
Qed.
End Listings.

(** C8.  The profile listing of [username] holds exactly the (annotated)
    posts whose author has that username and that the requesting viewer may
    see; a viewer who is not the author of a listed post sees it only when
    it is published, not future-dated and in a published category. *)
Theorem profile_listing_visible
        (request : Request) (username : string) (now : Z) (db : DB) :
  (forall p,
      In p (ProfileView.get_queryset request username now db)
      <-> In p (get_annotated_posts db (Post_objects db))
          /\ User.username (Post.author p) = username
          /\ visible_to (user request) now p)
  /\ (forall p,
         In p (ProfileView.get_queryset request username now db) ->
         ~ viewer_is_author (user request) p ->
         Post.is_published p = true
         /\ Post.pub_date p <= now
         /\ Category.is_published (Post.category p) = true).
Proof.
  assert (Hiff : forall p,
             In p (ProfileView.get_queryset request username now db)
             <-> In p (get_annotated_posts db (Post_objects db))
                 /\ User.username (Post.author p) = username
                 /\ visible_to (user request) now p).
  { intro p. rewrite in_ProfileView_queryset, in_PostListView_queryset. tauto. }
  split; [exact Hiff|].
  intros p Hin Hnot.
  apply Hiff in Hin. destruct Hin as [_ [_ [Hauth | Hpub]]].
  - contradiction.
  - exact Hpub.
Qed.

Lemma profile_listing_visible_witness :
  let request := Sample.as_user (AuthUser Sample.bob) GET page_absent in
  let listed := QS.with_comment_count Sample.db Sample.public_post in
  In listed (ProfileView.get_queryset request "alice" Sample.now Sample.db)
  /\ ~ viewer_is_author (user request) listed
  /\ Post.is_published listed = true
  /\ Post.pub_date listed <= Sample.now
  /\ Category.is_published (Post.category listed) = true.
Proof.
  intros request listed.
  assert (Hin : In listed
                   (ProfileView.get_queryset request "alice" Sample.now Sample.db)).
  { vm_compute; tauto. }
  assert (Hnot : ~ viewer_is_author (user request) listed).
  { simpl; unfold authored_by; simpl; lia. }
  split; [exact Hin | split; [exact Hnot|]].
  exact (proj2 (profile_listing_visible request "alice" Sample.now Sample.db)
               listed Hin Hnot).
Defined.

(** ** The home listing and the viewer *)

Lemma filter_filter_andb {A : Type} (f g : A -> bool) (l : list A) :
  List.filter f (List.filter g l) = List.filter (fun x => g x && f x) l.
Proof.
  induction l as [|x l IH]; simpl; [reflexivity|].
  destruct (g x); simpl; [destruct (f x)|]; rewrite IH; reflexivity.
Qed.

(** When the narrowing of the home view reads the clock no later than the
    visibility filter did, the narrowing absorbs the author disjunct: the
    home listing is the ordered list of the posts public at [now']. *)
Lemma home_queryset_public (request : Request) (now now' : Z) (db : DB) :
  now' <= now ->
  HomePageView.get_queryset request now now' db
  = QS.order_by_pub_date_desc
      (get_published_posts (get_annotated_posts db (Post_objects db)) now').
Proof.
  intro Hle.
  unfold HomePageView.get_queryset, PostListView.get_queryset, QS.filter_kw.
  rewrite filter_order_by. f_equal.
  unfold get_published_posts, QS.filter.
  destruct (user request) as [|v]; simpl get_visible_posts;
    unfold get_published_posts, QS.filter;
    rewrite filter_filter_andb; apply filter_ext_in; intros p _;
    apply eq_true_iff_eq;
    rewrite andb_true_iff, public_kw_spec, ?public_Q_spec, ?visible_Q_spec;
    unfold public_at; intuition lia.
Qed.

(** C9.  The home listing of one request equals that of any other, whoever
    the viewers, when the filter of the home view reads the clock no later
    than the visibility filter did, so at any one instant.  In general every
    row of a home listing is public at the second reading, and a row that
    one viewer's listing has and another's lacks is a post of the former
    dated after the first reading and not after the second. *)
Theorem home_listing_viewer_dependence
        (request1 request2 : Request) (now now' : Z) (db : DB) :
  (now' <= now ->
   HomePageView.get_queryset request1 now now' db
   = HomePageView.get_queryset request2 now now' db)
  /\ (forall p,
         In p (HomePageView.get_queryset request1 now now' db) ->
         public_at now' p)
  /\ (forall p,
         In p (HomePageView.get_queryset request1 now now' db) ->
         ~ In p (HomePageView.get_queryset request2 now now' db) ->
         viewer_is_author (user request1) p
         /\ now < Post.pub_date p <= now').
Proof.
  split; [|split].
  - intro Hle. rewrite !home_queryset_public by exact Hle. reflexivity.
  - intros p Hin. apply in_HomePageView_queryset in Hin. apply Hin.
  - intros p Hin Hout.
    apply in_HomePageView_queryset in Hin. destruct Hin as [Hbase Hpub].
    apply in_PostListView_queryset in Hbase. destruct Hbase as [Hann Hvis].
    assert (Hhidden : ~ visible_to (user request2) now p).
    { intro Hv. apply Hout. apply in_HomePageView_queryset.
      split; [|exact Hpub]. apply in_PostListView_queryset. auto. }
    assert (Hlate : ~ public_at now p).
    { intro Hp. apply Hhidden. right; exact Hp. }
    destruct Hpub as [Hflag [Hdate Hcat]].
    destruct Hvis as [Hauthor | Hp]; [|contradiction].
    split; [exact Hauthor|].
    split; [|exact Hdate].
    destruct (Z.lt_ge_cases now (Post.pub_date p)) as [Hlt | Hge];
      [exact Hlt|].
    exfalso. apply Hlate. unfold public_at. auto.
Qed.

Lemma home_listing_viewer_dependence_witness :
  let author := Sample.as_user (AuthUser Sample.alice) GET page_absent in
  let anonymous := Sample.as_user AnonymousUser GET page_absent in
  HomePageView.get_queryset author 500 500 Sample.db
  = HomePageView.get_queryset anonymous 500 500 Sample.db
  /\ (viewer_is_author (user author)
                       (QS.with_comment_count Sample.db Sample.scheduled)
      /\ 499 < Post.pub_date (QS.with_comment_count Sample.db Sample.scheduled)
         <= 500).
Proof.
  intros author anonymous. split.
  - apply (proj1 (home_listing_viewer_dependence
                    author anonymous 500 500 Sample.db)).
    lia.
  - apply (proj2 (proj2 (home_listing_viewer_dependence
                           author anonymous 499 500 Sample.db))).
    + vm_compute; tauto.
    + intro H. apply in_HomePageView_queryset in H. destruct H as [H _].
      apply in_PostListView_queryset in H.
      destruct H as [_ [[] | [_ [H _]]]].
      simpl in H. lia.
Defined.

(** With the clock read at 499 by the visibility filter and at 500 by the
    home view, the author of a post dated 500 is shown it and an anonymous
    viewer is not: the two listings differ. *)
Lemma home_listing_differs_across_clock_readings :
  HomePageView.get_queryset
    (Sample.as_user (AuthUser Sample.alice) GET page_absent) 499 500 Sample.db
  <> HomePageView.get_queryset
       (Sample.as_user AnonymousUser GET page_absent) 499 500 Sample.db.
Proof.
  intro Heq.
  assert (Hin : In (QS.with_comment_count Sample.db Sample.scheduled)
                   (HomePageView.get_queryset
                      (Sample.as_user AnonymousUser GET page_absent)
                      499 500 Sample.db)).
  { rewrite <- Heq. vm_compute; tauto. }
  apply in_HomePageView_queryset in Hin. destruct Hin as [Hin _].
  apply in_PostListView_queryset in Hin.
  destruct Hin as [_ [[] | [_ [H _]]]].
  simpl in H. lia.
Qed.

(** ** What a listing response shows *)

Section Rendering.
Implicit Types (request : Request) (queryset : QuerySet) (p : Post.t).

Lemma ListView_dispatch_rendered request template_name queryset
      (get_context_data : QuerySet -> result Context) t context :
  ListView.dispatch request template_name queryset get_context_data
  = ret (TemplateResponse t context) ->
  method request = GET /\ get_context_data queryset = ret context.
Proof.
  unfold ListView.dispatch.
  destruct (method request); [|discriminate].
  destruct (get_context_data queryset) as [e|c]; simpl; [discriminate|].
  unfold ret. intro H; injection H as _ ->. auto.
Qed.

Lemma in_slice queryset bottom top p :
  In p (Paginator.slice queryset bottom top) -> In p queryset.
Proof.
  unfold Paginator.slice. intro H.
  rewrite <- (firstn_skipn (Z.to_nat bottom) queryset).
  apply in_or_app; right.
  rewrite <- (firstn_skipn (Z.to_nat (top - bottom))
                           (skipn (Z.to_nat bottom) queryset)).
  apply in_or_app; left; exact H.
Qed.

Lemma in_page queryset per_page n pg p :
  Paginator.page queryset per_page n = Some pg ->
  In p (object_list pg) -> In p queryset.
Proof.
  unfold Paginator.page.
  destruct (n <? 1); [discriminate|].
  destruct (Paginator.num_pages queryset per_page <? n); [discriminate|].
  intro H; injection H as <-. simpl. apply in_slice.
Qed.

Lemma paginated_context_posts request paginate_by queryset context p :
  MultipleObjectMixin.get_context_data request paginate_by queryset
  = ret context ->
  In p (context_posts context) -> In p queryset.
Proof.
  unfold MultipleObjectMixin.get_context_data,
         MultipleObjectMixin.paginate_queryset.
  destruct (GET_page request) as [|n| |]; simpl; try discriminate;
    match goal with
    | |- context [Paginator.page ?q ?s ?k] =>
        destruct (Paginator.page q s k) as [pg|] eqn:Hpg
    end; simpl; try discriminate;
    unfold ret; intro H; injection H as <-; simpl;
    rewrite app_nil_r, in_app_iff;
    intros [Hin | Hin]; eapply in_page; eauto.
Qed.

Lemma context_posts_filter (keep : string * ContextValue -> bool)
      context p :
  In p (context_posts (List.filter keep context)) ->
  In p (context_posts context).
Proof.
  unfold context_posts. rewrite !in_flat_map.
  intros [kv [Hkv Hp]]. apply filter_In in Hkv. exists kv. tauto.
Qed.

Lemma context_posts_ctx_set key value context p :
  In p (context_posts (ctx_set key value context)) ->
  In p (context_posts [(key, value)]) \/ In p (context_posts context).
Proof.
  unfold ctx_set. intro H.
  unfold context_posts in H. simpl flat_map in H.
  apply in_app_or in H. destruct H as [H | H].
  - left. unfold context_posts; simpl flat_map.
    apply in_or_app; left; exact H.
  - right. eapply context_posts_filter, H.
Qed.
End Rendering.

Lemma get_object_or_404_found {A : Type} (objects : list A)
      (lookups : A -> bool) (obj : A) :
  get_object_or_404 objects lookups = ret obj ->
  In obj objects /\ lookups obj = true.
Proof.
  unfold get_object_or_404.
  destruct (List.filter lookups objects) as [|x [|y rest]] eqn:Hf;
    try discriminate.
  unfold ret; intro H; injection H as ->.
  apply filter_In. rewrite Hf. left; reflexivity.
Qed.

(** C3.  The home queryset holds no post whose category is unpublished, and
    no response of the home route and none of the category route shows such
    a post, whoever asks: the home queryset is narrowed to published
    categories, and the category route answers [Http404] unless the category
    of the slug is published. *)
Theorem listings_hide_unpublished_categories
        (request : Request) (now now' : Z) (db : DB) (p : Post.t) :
  (In p (HomePageView.get_queryset request now now' db) ->
   Category.is_published (Post.category p) = true)
  /\ (renders (HomePageView.dispatch request now now' db) p ->
      Category.is_published (Post.category p) = true)
  /\ (forall category_slug,
         category_fk_valid db -> slug_unique db ->
         renders (CategoryView.dispatch request category_slug now now' db) p ->
         Category.is_published (Post.category p) = true).
Proof.
  assert (Hhome : In p (HomePageView.get_queryset request now now' db) ->
                  Category.is_published (Post.category p) = true).
  { intro Hin. apply in_HomePageView_queryset in Hin.
    destruct Hin as [_ [_ [_ Hcat]]]. exact Hcat. }
  split; [exact Hhome | split].
  - intros [t [context [Hresp Hin]]].
    apply ListView_dispatch_rendered in Hresp. destruct Hresp as [_ Hctx].
    eapply paginated_context_posts in Hin; [|exact Hctx].
    apply Hhome, Hin.
  - intros category_slug Hfk Huniq [t [context [Hresp Hin]]].
    apply ListView_dispatch_rendered in Hresp. destruct Hresp as [_ Hctx].
    unfold CategoryView.get_context_data in Hctx.
    destruct (PostListView.get_context_data request _) as [e|context0] eqn:H0;
      simpl in Hctx; [discriminate|].
    destruct (get_object_or_404 (Category_objects db) _) as [e|c] eqn:Hc;
      simpl in Hctx; [discriminate|].
    unfold ret in Hctx; injection Hctx as <-.
    apply context_posts_ctx_set in Hin. destruct Hin as [Hin | Hin].
    { simpl in Hin. contradiction. }
    eapply paginated_context_posts in Hin; [|exact H0].
    apply in_CategoryView_queryset in Hin.
    destruct Hin as [Hlist [_ [_ Hslug]]].
    apply in_PostListView_queryset in Hlist. destruct Hlist as [Hann _].
    apply in_annotated in Hann. destruct Hann as [p0 [Hp0 ->]].
    simpl in *.
    apply get_object_or_404_found in Hc. destruct Hc as [Hcin Hclook].
    apply andb_true_iff in Hclook. destruct Hclook as [Hcslug Hcpub].
    apply String.eqb_eq in Hcslug. rewrite eqb_true_r in Hcpub.
    rewrite (Huniq (Post.category p0) c); auto.
    congruence.
Qed.

Lemma sample_db_category_fk_valid : category_fk_valid Sample.db.
Proof.
  intros p H. simpl in H.
  repeat (destruct H as [<- | H]; [simpl; tauto|]). contradiction.
Qed.

Lemma sample_db_slug_unique : slug_unique Sample.db.
Proof.
  intros c1 c2 H1 H2. simpl in H1, H2.
  destruct H1 as [<- | [<- | []]], H2 as [<- | [<- | []]];
    simpl; intro H; try reflexivity; discriminate H.
Qed.

Lemma listings_hide_unpublished_categories_witness :
  let request := Sample.as_user (AuthUser Sample.alice) GET page_absent in
  let listed := QS.with_comment_count Sample.db Sample.public_post in
  renders (CategoryView.dispatch request "travel" Sample.now Sample.now Sample.db)
          listed
  /\ Category.is_published (Post.category listed) = true.
Proof.
  intros request listed.
  assert (Hr : renders (CategoryView.dispatch request "travel"
                          Sample.now Sample.now Sample.db) listed).
  { eexists; eexists; split; [vm_compute; reflexivity | vm_compute; tauto]. }
  split; [exact Hr|].
  exact (proj2 (proj2 (listings_hide_unpublished_categories
                         request Sample.now Sample.now Sample.db listed))
               "travel" sample_db_category_fk_valid sample_db_slug_unique Hr).
Defined.

(** The queryset of the category route itself keeps an author's post in an
    unpublished category; the request is answered [Http404]. *)
Example category_of_hidden_slug :
  let request := Sample.as_user (AuthUser Sample.alice) GET page_absent in
  In (QS.with_comment_count Sample.db Sample.in_hidden)
     (CategoryView.get_queryset request "hidden" Sample.now Sample.now Sample.db)
  /\ CategoryView.dispatch request "hidden" Sample.now Sample.now Sample.db
     = raise Http404.
Proof. split; [vm_compute; tauto | reflexivity]. Qed.

(** ** The detail gate *)

Lemma author_ne_spec (a : User.t) (viewer : RequestUser) :
  author_ne a viewer = true
  <-> match viewer with
      | AnonymousUser => True
      | AuthUser v => User.pk a <> User.pk v
      end.
Proof.
  destruct viewer as [|v]; simpl; [tauto|].
  unfold User.eqb. rewrite negb_true_iff, Z.eqb_neq. tauto.
Qed.

Lemma detail_guard_spec (p : Post.t) (viewer : RequestUser) :
  negb (Post.is_published p) && author_ne (Post.author p) viewer = false
  <-> can_view_detail p viewer.
Proof.
  unfold can_view_detail.
  destruct (Post.is_published p); simpl; [intuition|].
  destruct viewer as [|v]; simpl; unfold authored_by, User.eqb.
  - intuition discriminate.
  - rewrite negb_false_iff, Z.eqb_eq. intuition discriminate.
Qed.

(** C4.  For a post [p] that the identifier resolves to: a GET request
    renders [p] exactly when [p] is published or the viewer is its author;
    when neither holds the request ends in [Http404], whatever the method;
    [PermissionDenied] is never raised.  Neither [pub_date] nor the
    category is consulted. *)
Theorem detail_view_gate
        (request : Request) (post_id : Z) (db : DB) (p : Post.t) :
  PostDetailView.get_object post_id db = ret p ->
  let response := PostDetailView.dispatch request post_id db in
  (method request = GET ->
   (renders response p <-> can_view_detail p (user request)))
  /\ (method request = GET -> can_view_detail p (user request) ->
      response = ret (TemplateResponse PostDetailView.template_name
                        (PostDetailView.get_context_data db p)))
  /\ (~ can_view_detail p (user request) -> response = raise Http404)
  /\ response <> raise PermissionDenied.
Proof.
  intros Hget response.
  assert (Hyes : method request = GET -> can_view_detail p (user request) ->
                 response = ret (TemplateResponse PostDetailView.template_name
                                   (PostDetailView.get_context_data db p))).
  { intros Hm Hcan. subst response. unfold PostDetailView.dispatch.
    unfold PostDetailView.get_object in Hget. rewrite Hget. simpl bind.
    apply detail_guard_spec in Hcan. rewrite Hcan.
    unfold DetailView.dispatch. rewrite Hm.
    unfold PostDetailView.get_object. rewrite Hget. reflexivity. }
  assert (Hno : ~ can_view_detail p (user request) -> response = raise Http404).
  { intro Hcan. subst response. unfold PostDetailView.dispatch.
    unfold PostDetailView.get_object in Hget. rewrite Hget. simpl bind.
    destruct (negb (Post.is_published p) && _) eqn:Hg; [reflexivity|].
    apply detail_guard_spec in Hg. contradiction. }
  repeat split.
  - intros [t [context [Hresp _]]].
    destruct (negb (Post.is_published p)
              && author_ne (Post.author p) (user request)) eqn:Hg.
    + assert (Hcan : ~ can_view_detail p (user request)).
      { intro Hcan. apply detail_guard_spec in Hcan. congruence. }
      rewrite (Hno Hcan) in Hresp. discriminate.
    + apply detail_guard_spec, Hg.
  - intro Hcan. exists PostDetailView.template_name. eexists.
    split; [apply Hyes; assumption|].
    unfold PostDetailView.get_context_data, context_posts. simpl. tauto.
  - exact Hyes.
  - exact Hno.
  - subst response. unfold PostDetailView.dispatch.
    unfold PostDetailView.get_object in Hget. rewrite Hget. simpl bind.
    destruct (negb (Post.is_published p) && _); [discriminate|].
    unfold DetailView.dispatch.
    destruct (method request); [|discriminate].
    unfold PostDetailView.get_object. rewrite Hget. discriminate.
Qed.

Lemma detail_view_gate_witness :
  let anonymous := Sample.as_user AnonymousUser GET page_absent in
  let stranger := Sample.as_user (AuthUser Sample.bob) GET page_absent in
  PostDetailView.dispatch anonymous 4 Sample.db
  = ret (TemplateResponse PostDetailView.template_name
           (PostDetailView.get_context_data Sample.db Sample.in_hidden))
  /\ PostDetailView.dispatch stranger 2 Sample.db = raise Http404.
Proof.
  intros anonymous stranger. split.
  - apply (detail_view_gate anonymous 4 Sample.db Sample.in_hidden).
    + reflexivity.
    + reflexivity.
    + left; reflexivity.
  - apply (detail_view_gate stranger 2 Sample.db Sample.draft).
    + reflexivity.
    + intros [H | H]; [discriminate H | simpl in H; discriminate H].
Defined.

(** ** The ownership guard *)

(** C5.  An authenticated viewer who is not the author of the resource gets
    a redirect and the database is left as it was, whatever the inherited
    generic view would have done: to the post's page for a post update, to
    the index for a post delete, to the parent post's page for a comment
    update or delete. *)
Theorem non_author_is_redirected
        (UpdateView_dispatch DeleteView_dispatch : Request -> Z -> DB -> Mutation)
        (request : Request) (v : User.t) (db : DB) :
  user request = AuthUser v ->
  (forall post_id r,
      get_object_or_404 (Post_objects db) (fun p => Post.pk p =? post_id) = ret r ->
      User.pk (Post.author r) <> User.pk v ->
      PostUpdateView.dispatch UpdateView_dispatch request post_id db
      = ret (HttpResponseRedirect (blog_post_detail (Post.pk r)), db)
      /\ PostDeleteView.dispatch DeleteView_dispatch request post_id db
         = ret (HttpResponseRedirect blog_index, db))
  /\ (forall comment_id r,
         get_object_or_404 (Comment_objects db)
                           (fun c => Comment.pk c =? comment_id) = ret r ->
         User.pk (Comment.author r) <> User.pk v ->
         CommentUpdateView.dispatch UpdateView_dispatch request comment_id db
         = ret (HttpResponseRedirect
                  (blog_post_detail (Post.pk (Comment.post r))), db)
         /\ CommentDeleteView.dispatch DeleteView_dispatch request comment_id db
            = ret (HttpResponseRedirect
                     (blog_post_detail (Post.pk (Comment.post r))), db)).
Proof.
  intro Huser. split.
  - intros post_id r Hget Hne.
    assert (Hg : author_ne (Post.author r) (user request) = true).
    { apply author_ne_spec. rewrite Huser. exact Hne. }
    unfold PostUpdateView.dispatch, PostDeleteView.dispatch.
    rewrite Hget. simpl bind. rewrite Hg. split; reflexivity.
  - intros comment_id r Hget Hne.
    assert (Hg : author_ne (Comment.author r) (user request) = true).
    { apply author_ne_spec. rewrite Huser. exact Hne. }
    unfold CommentUpdateView.dispatch, CommentDeleteView.dispatch,
           CommentChangeView.dispatch.
    rewrite Hget. simpl bind. rewrite Hg. split; reflexivity.
Qed.

Lemma non_author_is_redirected_witness :
  let wipe : Request -> Z -> DB -> Mutation :=
    fun _ _ _ => ret (HttpResponseRedirect blog_index, mkDB [] [] [] []) in
  let by_bob := Sample.as_user (AuthUser Sample.bob) POST page_absent in
  let by_alice := Sample.as_user (AuthUser Sample.alice) POST page_absent in
  (PostUpdateView.dispatch wipe by_bob 1 Sample.db
   = ret (HttpResponseRedirect (blog_post_detail 1), Sample.db)
   /\ PostDeleteView.dispatch wipe by_bob 1 Sample.db
      = ret (HttpResponseRedirect blog_index, Sample.db))
  /\ (CommentUpdateView.dispatch wipe by_alice 1 Sample.db
      = ret (HttpResponseRedirect (blog_post_detail 1), Sample.db)
      /\ CommentDeleteView.dispatch wipe by_alice 1 Sample.db
         = ret (HttpResponseRedirect (blog_post_detail 1), Sample.db)).
Proof.
  intros wipe by_bob by_alice. split.
  - apply (proj1 (non_author_is_redirected wipe wipe by_bob Sample.bob
                                           Sample.db eq_refl)
                 1 Sample.public_post).
    + reflexivity.
    + simpl; lia.
  - apply (proj2 (non_author_is_redirected wipe wipe by_alice Sample.alice
                                           Sample.db eq_refl)
                 1 Sample.first_comment).
    + reflexivity.
    + simpl; lia.
Defined.

(** ** Creating a comment *)

Lemma get_object_or_404_absent {A : Type} (objects : list A)
      (lookups : A -> bool) :
  (forall obj, In obj objects -> lookups obj = false) ->
  get_object_or_404 objects lookups = raise Http404.
Proof.
  intro Hnone. unfold get_object_or_404.
  destruct (List.filter lookups objects) as [|x rest] eqn:Hf; [reflexivity|].
  assert (Hx : In x (List.filter lookups objects)) by (rewrite Hf; left; reflexivity).
  apply filter_In in Hx. destruct Hx as [Hin Htrue].
  rewrite (Hnone x Hin) in Htrue. discriminate.
Qed.

(** C7.  For an authenticated viewer [v]: when no post has the identifier
    the request ends in [Http404]; when the identifier resolves to [p] and a
    valid form is posted, one comment is appended whose author is [v] and
    whose post is [p], nothing else is written, and the response redirects
    to the detail page of [p]. *)
Theorem comment_create_stamps_author_and_post
        (CommentForm_clean : QueryDict -> option string)
        (request : Request) (v : User.t) (post_id now : Z) (db : DB) :
  user request = AuthUser v ->
  ((forall p, In p (Post_objects db) -> Post.pk p <> post_id) ->
   CommentCreateView.dispatch CommentForm_clean request post_id now db
   = raise Http404)
  /\ (forall p text,
         get_object_or_404 (Post_objects db) (fun q => Post.pk q =? post_id)
         = ret p ->
         method request = POST ->
         CommentForm_clean (POST_data request) = Some text ->
         exists c,
           CommentCreateView.dispatch CommentForm_clean request post_id now db
           = ret (HttpResponseRedirect (blog_post_detail (Post.pk p)),
                  mkDB (User_objects db) (Category_objects db) (Post_objects db)
                       (Comment_objects db ++ [c]))
           /\ Comment.author c = v
           /\ Comment.post c = p
           /\ Comment.text c = text).
Proof.
  intro Huser. split.
  - intro Habsent. unfold CommentCreateView.dispatch.
    rewrite get_object_or_404_absent; [reflexivity|].
    intros p Hp. apply Z.eqb_neq, Habsent, Hp.
  - intros p text Hget Hm Hclean.
    unfold CommentCreateView.dispatch. rewrite Hget. simpl bind.
    unfold LoginRequiredMixin.dispatch. rewrite Huser, Hm. simpl.
    unfold CommentCreateView.post. rewrite Hclean.
    unfold CommentCreateView.form_valid. rewrite Huser.
    unfold Comment_save, CommentCreateView.get_success_url, redirect.
    eexists. split; [reflexivity|]. simpl. auto.
Qed.

Lemma comment_create_stamps_author_and_post_witness :
  let clean : QueryDict -> option string :=
    fun data => match data with
                | [("text", t)] => Some t
                | _ => None
                end in
  let request :=
    mkRequest (AuthUser Sample.alice) POST page_absent [("text", "hello")] in
  exists c,
    CommentCreateView.dispatch clean request 5 Sample.now Sample.db
    = ret (HttpResponseRedirect (blog_post_detail 5),
           mkDB (User_objects Sample.db) (Category_objects Sample.db)
                (Post_objects Sample.db) [Sample.first_comment; c])
    /\ Comment.author c = Sample.alice
    /\ Comment.post c = Sample.bobs_post
    /\ Comment.text c = "hello".
Proof.
  intros clean request.
  exact (proj2 (comment_create_stamps_author_and_post
                  clean request Sample.alice 5 Sample.now Sample.db eq_refl)
               Sample.bobs_post "hello" eq_refl eq_refl eq_refl).
Defined.

(** ** Ordering and pagination of the listings *)

Section Pagination.
Variable queryset : QuerySet.

Lemma sorted_app_le (l1 l2 : QuerySet) :
  pub_date_desc (l1 ++ l2)%list ->
  forall p q, In p l1 -> In q l2 -> Post.pub_date q <= Post.pub_date p.
Proof.
  unfold pub_date_desc.
  induction l1 as [|x l1 IH]; simpl; intros Hs p q Hp Hq; [contradiction|].
  inversion Hs as [|? ? Hs' Hall]; subst.
  destruct Hp as [<- | Hp].
  - rewrite Forall_forall in Hall. apply Hall, in_or_app. right; exact Hq.
  - apply IH; assumption.
Qed.

(** A page is the run of at most ten rows that starts after the rows of
    the pages before it. *)
Lemma page_object_list (n : Z) (pg : Page) :
  Paginator.page queryset PostListView.paginate_by n = Some pg ->
  1 <= n
  /\ number pg = n
  /\ object_list pg
     = List.firstn 10 (List.skipn (10 * (Z.to_nat n - 1)) queryset).
Proof.
  unfold Paginator.page, PostListView.paginate_by, Paginator.count.
  destruct (Z.ltb_spec n 1) as [|Hn]; [discriminate|].
  destruct (Paginator.num_pages queryset 10 <? n); [discriminate|].
  intro H; injection H as <-.
  split; [exact Hn | split; [reflexivity|]].
  cbn [object_list]. unfold Paginator.slice.
  replace (Z.to_nat ((n - 1) * 10)) with (10 * (Z.to_nat n - 1))%nat by lia.
  destruct (Z.leb_spec (Z.of_nat (List.length queryset)) ((n - 1) * 10 + 10))
    as [Hlast | Hfull].
  - assert (Hlen : (List.length (skipn (10 * (Z.to_nat n - 1)) queryset) <= 10)%nat).
    { rewrite length_skipn. lia. }
    rewrite (firstn_all2 (n := 10)) by exact Hlen.
    apply firstn_all2. rewrite length_skipn. lia.
  - f_equal. lia.
Qed.

Lemma page_size (n : Z) (pg : Page) :
  Paginator.page queryset PostListView.paginate_by n = Some pg ->
  (List.length (object_list pg) <= 10)%nat.
Proof.
  intro H. apply page_object_list in H. destruct H as [_ [_ ->]].
  apply firstn_le_length.
Qed.

End Pagination.

Lemma listing_sorted (request : Request) (category_slug username : string)
      (now now' : Z) (db : DB) (queryset : QuerySet) :
  In queryset
     [PostListView.get_queryset request now db;
      HomePageView.get_queryset request now now' db;
      CategoryView.get_queryset request category_slug now now' db;
      ProfileView.get_queryset request username now db] ->
  pub_date_desc queryset.
Proof.
  simpl. intros [<- | [<- | [<- | [<- | []]]]].
  - apply order_by_sorted.
  - apply filter_sorted, order_by_sorted.
  - apply filter_sorted, order_by_sorted.
  - apply filter_sorted, order_by_sorted.
Qed.

(** * Further properties of the views *)

(** ** The filters compose *)

Lemma filter_all_true {A : Type} (f : A -> bool) (l : list A) :
  (forall x, In x l -> f x = true) -> List.filter f l = l.
Proof.
  induction l as [|x l IH]; simpl; intro H; [reflexivity|].
  rewrite (H x (or_introl eq_refl)). f_equal. apply IH.
  intros y Hy. apply H. right; exact Hy.
Qed.

Lemma filter_map_commute {A B : Type} (g : A -> B) (f : B -> bool)
      (l : list A) :
  List.filter f (List.map g l) = List.map g (List.filter (fun x => f (g x)) l).
Proof.
  induction l as [|x l IH]; simpl; [reflexivity|].
  destruct (f (g x)); simpl; rewrite IH; reflexivity.
Qed.

(** No lookup reads the annotation. *)
Lemma Q_eval_with_comment_count (db : DB) (q : Q) (p : Post.t) :
  Q_eval q (QS.with_comment_count db p) = Q_eval q p.
Proof.
  induction q as [l|a IHa b IHb|a IHa b IHb]; simpl.
  - destruct l; reflexivity.
  - rewrite IHa, IHb; reflexivity.
  - rewrite IHa, IHb; reflexivity.
Qed.

(** X1.  Filtering twice is filtering once, and the anonymous filter
    applied to what a viewer sees gives what the anonymous viewer sees. *)
Theorem visible_posts_idempotent
        (queryset : QuerySet) (user : option RequestUser) (now : Z) :
  get_visible_posts (get_visible_posts queryset user now) user now
  = get_visible_posts queryset user now
  /\ get_published_posts (get_visible_posts queryset user now) now
     = get_published_posts queryset now.
Proof.
  split.
  - destruct user as [[|v]|]; simpl; unfold get_published_posts, QS.filter;
      apply filter_all_true; intros p Hp; apply filter_In in Hp; apply Hp.
  - destruct user as [[|v]|]; simpl; unfold get_published_posts, QS.filter;
      rewrite filter_filter_andb; apply filter_ext; intro p;
      apply eq_true_iff_eq;
      rewrite andb_true_iff, ?public_Q_spec, ?visible_Q_spec; tauto.
Qed.

(** X2.  Time alone never hides a post: what a viewer sees at [now] the
    same viewer sees at every later instant. *)
Theorem visible_posts_persist
        (queryset : QuerySet) (user : option RequestUser) (now now' : Z)
        (p : Post.t) :
  now <= now' ->
  In p (get_visible_posts queryset user now) ->
  In p (get_visible_posts queryset user now').
Proof.
  intros Hle Hin.
  assert (Hpub : forall q, public_at now q -> public_at now' q).
  { unfold public_at; intros q [H1 [H2 H3]]; repeat split; auto; lia. }
  destruct user as [viewer|].
  - apply in_get_visible_posts in Hin. apply in_get_visible_posts.
    unfold visible_to in *. intuition.
  - apply in_get_published_posts in Hin. apply in_get_published_posts.
    intuition.
Qed.

Lemma visible_posts_persist_witness :
  In Sample.public_post
     (get_visible_posts (Post_objects Sample.db) (Some AnonymousUser) 1000).
Proof.
  apply (visible_posts_persist (Post_objects Sample.db) (Some AnonymousUser)
                               Sample.now 1000).
  - unfold Sample.now; lia.
  - vm_compute; tauto.
Defined.

(** X3.  Annotating with the comment count and filtering by visibility
    commute: the annotation changes nothing about who sees what. *)
Theorem annotation_commutes_with_visibility
        (db : DB) (queryset : QuerySet) (user : option RequestUser) (now : Z) :
  get_visible_posts (get_annotated_posts db queryset) user now
  = get_annotated_posts db (get_visible_posts queryset user now).
Proof.
  unfold get_annotated_posts, QS.annotate_comment_count.
  destruct user as [[|v]|]; simpl; unfold get_published_posts, QS.filter;
    rewrite filter_map_commute; f_equal; apply filter_ext; intro p;
    apply Q_eval_with_comment_count.
Qed.

(** ** Listings compose *)

(** X5.  With a clock that does not run backwards between the two readings
    of a request, the home listing of an anonymous viewer is the base
    listing: the narrowing removes nothing. *)
Theorem home_listing_anonymous_is_base
        (request : Request) (now now' : Z) (db : DB) :
  user request = AnonymousUser ->
  now <= now' ->
  HomePageView.get_queryset request now now' db
  = PostListView.get_queryset request now db.
Proof.
  intros Hanon Hle.
  unfold HomePageView.get_queryset, QS.filter_kw.
  apply filter_all_true. intros p Hp.
  apply in_PostListView_queryset in Hp. rewrite Hanon in Hp.
  destruct Hp as [_ [[] | [H1 [H2 H3]]]].
  apply public_kw_spec. repeat split; auto; lia.
Qed.

Lemma home_listing_anonymous_is_base_witness :
  let request := Sample.as_user AnonymousUser GET page_absent in
  HomePageView.get_queryset request 100 101 Sample.db
  = PostListView.get_queryset request 100 Sample.db.
Proof.
  intro request.
  apply home_listing_anonymous_is_base; [reflexivity | lia].
Defined.

Lemma visible_filter_commute (keep : Post.t -> bool) (queryset : QuerySet)
      (user : option RequestUser) (now : Z) :
  List.filter keep (get_visible_posts queryset user now)
  = get_visible_posts (List.filter keep queryset) user now.
Proof.
  destruct user as [[|v]|]; simpl; unfold get_published_posts, QS.filter;
    rewrite !filter_filter_andb; apply filter_ext; intro p; apply andb_comm.
Qed.

(** X6.  The profile listing is the base listing computed over the posts
    of that username alone: restricting to the author before or after the
    annotation, the visibility filter and the ordering gives the same
    rows. *)
Theorem profile_listing_is_base_over_author
        (request : Request) (username : string) (now : Z) (db : DB) :
  ProfileView.get_queryset request username now db
  = PostListView.get_queryset request now
      (mkDB (User_objects db) (Category_objects db)
            (List.filter
               (fun p => String.eqb (User.username (Post.author p)) username)
               (Post_objects db))
            (Comment_objects db)).
Proof.
  unfold ProfileView.get_queryset, PostListView.get_queryset, QS.filter_kw.
  rewrite filter_order_by. f_equal.
  rewrite visible_filter_commute. f_equal.
  cbn [Post_objects].
  unfold get_annotated_posts, QS.annotate_comment_count.
  rewrite filter_map_commute.
  apply f_equal2.
  - reflexivity.
  - apply filter_ext. intro p. simpl. apply andb_true_r.
Qed.

(** ** Error behaviour of the read-only routes *)

Lemma paginated_context_raises (request : Request) (paginate_by : Z)
      (queryset : QuerySet) (e : Exception) :
  MultipleObjectMixin.get_context_data request paginate_by queryset = raise e ->
  e = Http404.
Proof.
  unfold MultipleObjectMixin.get_context_data,
         MultipleObjectMixin.paginate_queryset, raise, ret.
  destruct (GET_page request) as [|n| |]; simpl;
    try (intro H; injection H as <-; reflexivity);
    match goal with
    | |- context [Paginator.page ?q ?s ?k] => destruct (Paginator.page q s k)
    end; simpl; intro H; try discriminate H;
    injection H as <-; reflexivity.
Qed.

(** X7.  A GET of the category route for a slug that no published category
    carries ends in [Http404], for every viewer and page, whatever posts the
    queryset holds. *)
Theorem category_route_without_published_category
        (request : Request) (category_slug : string) (now now' : Z) (db : DB) :
  method request = GET ->
  (forall c, In c (Category_objects db) ->
             Category.slug c = category_slug ->
             Category.is_published c = false) ->
  CategoryView.dispatch request category_slug now now' db = raise Http404.
Proof.
  intros Hm Hnone.
  unfold CategoryView.dispatch, ListView.dispatch. rewrite Hm.
  unfold CategoryView.get_context_data.
  destruct (PostListView.get_context_data request _) as [e|context] eqn:Hctx.
  - apply paginated_context_raises in Hctx. subst e. reflexivity.
  - simpl bind at 2.
    rewrite get_object_or_404_absent; [reflexivity|].
    intros c Hc.
    destruct (String.eqb_spec (Category.slug c) category_slug) as [Hs|Hs];
      [|reflexivity].
    rewrite (Hnone c Hc Hs). reflexivity.
Qed.

Lemma category_route_without_published_category_witness :
  CategoryView.dispatch (Sample.as_user (AuthUser Sample.alice) GET page_absent)
                        "hidden" Sample.now Sample.now Sample.db
  = raise Http404
  /\ CategoryView.dispatch (Sample.as_user AnonymousUser GET page_absent)
                           "nowhere" Sample.now Sample.now Sample.db
     = raise Http404.
Proof.
  split; apply category_route_without_published_category;
    try reflexivity;
    intros c Hc Hs; simpl in Hc;
    destruct Hc as [<- | [<- | []]]; try reflexivity; discriminate Hs.
Defined.

(** X8.  A rendered category page shows only posts of the requested slug
    that are published and not dated after the second clock reading, its
    author's own drafts included in the ban; and the category it names is a
    stored, published category of that slug. *)
Theorem category_page_contents
        (request : Request) (category_slug : string) (now now' : Z) (db : DB)
        (t : string) (context : Context) :
  CategoryView.dispatch request category_slug now now' db
  = ret (TemplateResponse t context) ->
  (forall p, In p (context_posts context) ->
             Category.slug (Post.category p) = category_slug
             /\ Post.is_published p = true
             /\ Post.pub_date p <= now')
  /\ exists c,
      In ("category", V_category c) context
      /\ In c (Category_objects db)
      /\ Category.slug c = category_slug
      /\ Category.is_published c = true.
Proof.
  intro Hresp.
  apply ListView_dispatch_rendered in Hresp. destruct Hresp as [_ Hctx].
  unfold CategoryView.get_context_data in Hctx.
  destruct (PostListView.get_context_data request _) as [e|context0] eqn:H0;
    simpl in Hctx; [discriminate|].
  destruct (get_object_or_404 (Category_objects db) _) as [e|c] eqn:Hc;
    simpl in Hctx; [discriminate|].
  unfold ret in Hctx; injection Hctx as <-.
  split.
  - intros p Hin.
    apply context_posts_ctx_set in Hin. destruct Hin as [Hin | Hin].
    { simpl in Hin. contradiction. }
    eapply paginated_context_posts in Hin; [|exact H0].
    apply in_CategoryView_queryset in Hin. tauto.
  - exists c.
    apply get_object_or_404_found in Hc. destruct Hc as [Hcin Hclook].
    apply andb_true_iff in Hclook. destruct Hclook as [Hcslug Hcpub].
    apply String.eqb_eq in Hcslug. rewrite eqb_true_r in Hcpub.
    repeat split; auto.
    unfold ctx_set. left; reflexivity.
Qed.

Lemma category_page_contents_witness :
  exists c,
    Category.slug c = "travel" /\ Category.is_published c = true
    /\ In c (Category_objects Sample.db).
Proof.
  destruct (category_page_contents
              (Sample.as_user (AuthUser Sample.alice) GET page_absent)
              "travel" Sample.now Sample.now Sample.db _ _ eq_refl)
    as [_ [c [_ [Hin [Hslug Hpub]]]]].
  exists c. auto.
Defined.

(** X9.  A GET of the profile route for a username no user has ends in
    [Http404]; a rendered profile page shows only posts whose author has
    the username, and names a stored user of that username. *)
Theorem profile_route_user_lookup
        (request : Request) (username : string) (now : Z) (db : DB) :
  (method request = GET ->
   (forall u, In u (User_objects db) -> User.username u <> username) ->
   ProfileView.dispatch request username now db = raise Http404)
  /\ (forall t context,
         ProfileView.dispatch request username now db
         = ret (TemplateResponse t context) ->
         (forall p, In p (context_posts context) ->
                    User.username (Post.author p) = username)
         /\ exists u,
             In ("profile", V_user u) context
             /\ In u (User_objects db)
             /\ User.username u = username).
Proof.
  split.
  - intros Hm Hnone.
    unfold ProfileView.dispatch, ListView.dispatch. rewrite Hm.
    unfold ProfileView.get_context_data.
    destruct (PostListView.get_context_data request _) as [e|context] eqn:Hctx.
    + apply paginated_context_raises in Hctx. subst e. reflexivity.
    + simpl bind at 2.
      rewrite get_object_or_404_absent; [reflexivity|].
      intros u Hu. apply String.eqb_neq, Hnone, Hu.
  - intros t context Hresp.
    apply ListView_dispatch_rendered in Hresp. destruct Hresp as [_ Hctx].
    unfold ProfileView.get_context_data in Hctx.
    destruct (PostListView.get_context_data request _) as [e|context0] eqn:H0;
      simpl in Hctx; [discriminate|].
    destruct (get_object_or_404 (User_objects db) _) as [e|u] eqn:Hu;
      simpl in Hctx; [discriminate|].
    unfold ret in Hctx; injection Hctx as <-.
    split.
    + intros p Hin.
      apply context_posts_ctx_set in Hin. destruct Hin as [Hin | Hin].
      { simpl in Hin. contradiction. }
      eapply paginated_context_posts in Hin; [|exact H0].
      apply in_ProfileView_queryset in Hin. tauto.
    + exists u.
      apply get_object_or_404_found in Hu. destruct Hu as [Huin Hulook].
      apply String.eqb_eq in Hulook.
      repeat split; auto.
      unfold ctx_set. left; reflexivity.
Qed.

Lemma profile_route_user_lookup_witness :
  ProfileView.dispatch (Sample.as_user AnonymousUser GET page_absent)
                       "carol" Sample.now Sample.db
  = raise Http404.
Proof.
  apply (proj1 (profile_route_user_lookup
                  (Sample.as_user AnonymousUser GET page_absent)
                  "carol" Sample.now Sample.db)).
  - reflexivity.
  - intros u Hu. simpl in Hu.
    destruct Hu as [<- | [<- | []]]; simpl; discriminate.
Defined.

(** X10.  The detail route answers [Http404] when no post has the
    identifier, for every viewer and method. *)
Theorem detail_route_missing_post
        (request : Request) (post_id : Z) (db : DB) :
  (forall p, In p (Post_objects db) -> Post.pk p <> post_id) ->
  PostDetailView.dispatch request post_id db = raise Http404.
Proof.
  intro Habsent. unfold PostDetailView.dispatch.
  rewrite get_object_or_404_absent; [reflexivity|].
  intros p Hp. apply Z.eqb_neq, Habsent, Hp.
Qed.

Lemma detail_route_missing_post_witness :
  PostDetailView.dispatch (Sample.as_user (AuthUser Sample.alice) GET page_absent)
                          99 Sample.db
  = raise Http404.
Proof.
  apply detail_route_missing_post.
  intros p Hp. simpl in Hp.
  repeat (destruct Hp as [<- | Hp]; [simpl; lia|]). contradiction.
Defined.

Lemma filter_key_absent {A : Type} (key : A -> Z) (k : Z) (l : list A) :
  ~ In k (List.map key l) -> List.filter (fun x => key x =? k) l = [].
Proof.
  induction l as [|x l IH]; simpl; intro Hk; [reflexivity|].
  destruct (Z.eqb_spec (key x) k) as [E|E]; [exfalso; apply Hk; left; exact E|].
  apply IH. intro H. apply Hk. right; exact H.
Qed.

(** X11.  Where primary keys are unique, looking a stored row up by its key
    returns that row; it never raises. *)
Theorem get_object_or_404_by_key
        {A : Type} (key : A -> Z) (objects : list A) (obj : A) :
  NoDup (List.map key objects) ->
  In obj objects ->
  get_object_or_404 objects (fun x => key x =? key obj) = ret obj.
Proof.
  intros Hnd Hin. unfold get_object_or_404.
  assert (Hf : List.filter (fun x => key x =? key obj) objects = [obj]).
  { induction objects as [|x l IH]; [contradiction|].
    simpl in Hnd. inversion Hnd as [|? ? Hx Hnd']; subst.
    simpl. destruct Hin as [-> | Hin].
    - rewrite Z.eqb_refl. f_equal. apply filter_key_absent, Hx.
    - destruct (Z.eqb_spec (key x) (key obj)) as [E|E].
      + exfalso. apply Hx. rewrite E. apply in_map, Hin.
      + apply IH; assumption. }
  rewrite Hf. reflexivity.
Qed.

Lemma get_object_or_404_by_key_witness :
  PostDetailView.get_object 3 Sample.db = ret Sample.scheduled.
Proof.
  apply (get_object_or_404_by_key Post.pk (Post_objects Sample.db)
                                  Sample.scheduled).
  - simpl. repeat constructor; simpl; intuition discriminate.
  - simpl; tauto.
Defined.

(** ** The guards of the writing views *)

Section Guards.
Variables (UpdateView_dispatch DeleteView_dispatch
           : Request -> Z -> DB -> Mutation).
Variables (request : Request) (db : DB).

Lemma post_guard_redirects (post_id : Z) (r : Post.t) :
  get_object_or_404 (Post_objects db) (fun p => Post.pk p =? post_id) = ret r ->
  author_ne (Post.author r) (user request) = true ->
  PostUpdateView.dispatch UpdateView_dispatch request post_id db
  = ret (HttpResponseRedirect (blog_post_detail (Post.pk r)), db)
  /\ PostDeleteView.dispatch DeleteView_dispatch request post_id db
     = ret (HttpResponseRedirect blog_index, db).
Proof.
  intros Hget Hg.
  unfold PostUpdateView.dispatch, PostDeleteView.dispatch.
  rewrite Hget. simpl bind. rewrite Hg. split; reflexivity.
Qed.

Lemma comment_guard_redirects (comment_id : Z) (r : Comment.t) :
  get_object_or_404 (Comment_objects db) (fun c => Comment.pk c =? comment_id)
  = ret r ->
  author_ne (Comment.author r) (user request) = true ->
  CommentUpdateView.dispatch UpdateView_dispatch request comment_id db
  = ret (HttpResponseRedirect (blog_post_detail (Post.pk (Comment.post r))), db)
  /\ CommentDeleteView.dispatch DeleteView_dispatch request comment_id db
     = ret (HttpResponseRedirect (blog_post_detail (Post.pk (Comment.post r))),
            db).
Proof.
  intros Hget Hg.
  unfold CommentUpdateView.dispatch, CommentDeleteView.dispatch,
         CommentChangeView.dispatch.
  rewrite Hget. simpl bind. rewrite Hg. split; reflexivity.
Qed.
End Guards.

(** X12.  An anonymous request to update or delete an existing post or
    comment is not sent to the login page: the ownership test comes first
    and answers with the same redirect a non-author gets (post page, index,
    parent post page); the database is left as it was. *)
Theorem anonymous_is_deflected_before_login
        (UpdateView_dispatch DeleteView_dispatch : Request -> Z -> DB -> Mutation)
        (request : Request) (db : DB) :
  user request = AnonymousUser ->
  (forall post_id r,
      get_object_or_404 (Post_objects db) (fun p => Post.pk p =? post_id) = ret r ->
      PostUpdateView.dispatch UpdateView_dispatch request post_id db
      = ret (HttpResponseRedirect (blog_post_detail (Post.pk r)), db)
      /\ PostDeleteView.dispatch DeleteView_dispatch request post_id db
         = ret (HttpResponseRedirect blog_index, db))
  /\ (forall comment_id r,
         get_object_or_404 (Comment_objects db)
                           (fun c => Comment.pk c =? comment_id) = ret r ->
         CommentUpdateView.dispatch UpdateView_dispatch request comment_id db
         = ret (HttpResponseRedirect
                  (blog_post_detail (Post.pk (Comment.post r))), db)
         /\ CommentDeleteView.dispatch DeleteView_dispatch request comment_id db
            = ret (HttpResponseRedirect
                     (blog_post_detail (Post.pk (Comment.post r))), db)).
Proof.
  intro Hanon. split.
  - intros post_id r Hget. apply post_guard_redirects; [exact Hget|].
    rewrite Hanon. reflexivity.
  - intros comment_id r Hget. apply comment_guard_redirects; [exact Hget|].
    rewrite Hanon. reflexivity.
Qed.

Lemma anonymous_is_deflected_before_login_witness :
  let wipe : Request -> Z -> DB -> Mutation :=
    fun _ _ _ => ret (HttpResponseRedirect login, mkDB [] [] [] []) in
  let request := Sample.as_user AnonymousUser POST page_absent in
  PostUpdateView.dispatch wipe request 2 Sample.db
  = ret (HttpResponseRedirect (blog_post_detail 2), Sample.db)
  /\ PostDeleteView.dispatch wipe request 2 Sample.db
     = ret (HttpResponseRedirect blog_index, Sample.db).
Proof.
  intros wipe request.
  apply (proj1 (anonymous_is_deflected_before_login
                  wipe wipe request Sample.db eq_refl)
               2 Sample.draft).
  reflexivity.
Defined.

(** X13.  Every writing view that takes an identifier answers [Http404]
    when nothing is stored under it, before it looks at who asks: so does
    an anonymous request, and nothing is written. *)
Theorem writing_views_missing_target
        (UpdateView_dispatch DeleteView_dispatch : Request -> Z -> DB -> Mutation)
        (CommentForm_clean : QueryDict -> option string)
        (request : Request) (id now : Z) (db : DB) :
  ((forall p, In p (Post_objects db) -> Post.pk p <> id) ->
   PostUpdateView.dispatch UpdateView_dispatch request id db = raise Http404
   /\ PostDeleteView.dispatch DeleteView_dispatch request id db = raise Http404
   /\ CommentCreateView.dispatch CommentForm_clean request id now db
      = raise Http404)
  /\ ((forall c, In c (Comment_objects db) -> Comment.pk c <> id) ->
      CommentUpdateView.dispatch UpdateView_dispatch request id db
      = raise Http404
      /\ CommentDeleteView.dispatch DeleteView_dispatch request id db
         = raise Http404).
Proof.
  split; intro Habsent.
  - assert (H : get_object_or_404 (Post_objects db) (fun p => Post.pk p =? id)
                = raise Http404).
    { apply get_object_or_404_absent. intros p Hp.
      apply Z.eqb_neq, Habsent, Hp. }
    unfold PostUpdateView.dispatch, PostDeleteView.dispatch,
           CommentCreateView.dispatch.
    rewrite H. repeat split; reflexivity.
  - assert (H : get_object_or_404 (Comment_objects db)
                                  (fun c => Comment.pk c =? id)
                = raise Http404).
    { apply get_object_or_404_absent. intros c Hc.
      apply Z.eqb_neq, Habsent, Hc. }
    unfold CommentUpdateView.dispatch, CommentDeleteView.dispatch,
           CommentChangeView.dispatch.
    rewrite H. split; reflexivity.
Qed.

Lemma writing_views_missing_target_witness :
  let wipe : Request -> Z -> DB -> Mutation :=
    fun _ _ _ => ret (HttpResponseRedirect login, mkDB [] [] [] []) in
  let request := Sample.as_user AnonymousUser POST page_absent in
  CommentUpdateView.dispatch wipe request 7 Sample.db = raise Http404
  /\ CommentDeleteView.dispatch wipe request 7 Sample.db = raise Http404.
Proof.
  intros wipe request.
  apply (proj2 (writing_views_missing_target
                  wipe wipe (fun _ => None) request 7 Sample.now Sample.db)).
  intros c Hc. simpl in Hc. destruct Hc as [<- | []]. simpl; lia.
Defined.

(** X14.  The author's own request passes both guards: the four update and
    delete views answer exactly what the inherited generic view answers. *)
Theorem author_reaches_generic_view
        (UpdateView_dispatch DeleteView_dispatch : Request -> Z -> DB -> Mutation)
        (request : Request) (v : User.t) (db : DB) :
  user request = AuthUser v ->
  (forall post_id r,
      get_object_or_404 (Post_objects db) (fun p => Post.pk p =? post_id) = ret r ->
      User.pk (Post.author r) = User.pk v ->
      PostUpdateView.dispatch UpdateView_dispatch request post_id db
      = UpdateView_dispatch request post_id db
      /\ PostDeleteView.dispatch DeleteView_dispatch request post_id db
         = DeleteView_dispatch request post_id db)
  /\ (forall comment_id r,
         get_object_or_404 (Comment_objects db)
                           (fun c => Comment.pk c =? comment_id) = ret r ->
         User.pk (Comment.author r) = User.pk v ->
         CommentUpdateView.dispatch UpdateView_dispatch request comment_id db
         = UpdateView_dispatch request comment_id db
         /\ CommentDeleteView.dispatch DeleteView_dispatch request comment_id db
            = DeleteView_dispatch request comment_id db).
Proof.
  intro Huser. split.
  - intros post_id r Hget Hsame.
    assert (Hg : author_ne (Post.author r) (user request) = false).
    { rewrite Huser. simpl. unfold User.eqb.
      apply Z.eqb_eq in Hsame. rewrite Hsame. reflexivity. }
    unfold PostUpdateView.dispatch, PostDeleteView.dispatch,
           LoginRequiredMixin.dispatch.
    rewrite Hget. simpl bind. rewrite Hg, Huser. split; reflexivity.
  - intros comment_id r Hget Hsame.
    assert (Hg : author_ne (Comment.author r) (user request) = false).
    { rewrite Huser. simpl. unfold User.eqb.
      apply Z.eqb_eq in Hsame. rewrite Hsame. reflexivity. }
    unfold CommentUpdateView.dispatch, CommentDeleteView.dispatch,
           CommentChangeView.dispatch, LoginRequiredMixin.dispatch.
    rewrite Hget. simpl bind. rewrite Hg, Huser. split; reflexivity.
Qed.

Lemma author_reaches_generic_view_witness :
  let drop_comments : Request -> Z -> DB -> Mutation :=
    fun _ _ d =>
      ret (HttpResponseRedirect blog_index,
           mkDB (User_objects d) (Category_objects d) (Post_objects d) []) in
  let request := Sample.as_user (AuthUser Sample.bob) POST page_absent in
  CommentUpdateView.dispatch drop_comments request 1 Sample.db
  = drop_comments request 1 Sample.db
  /\ CommentDeleteView.dispatch drop_comments request 1 Sample.db
     = drop_comments request 1 Sample.db.
Proof.
  intros drop_comments request.
  apply (proj2 (author_reaches_generic_view
                  drop_comments drop_comments request Sample.bob Sample.db
                  eq_refl)
               1 Sample.first_comment); reflexivity.
Defined.

(** X15.  The views without an ownership test of their own send an
    anonymous request to the login page and write nothing: creating a post,
    updating the profile, and commenting on an existing post. *)
Theorem anonymous_is_sent_to_login
        (PostForm_clean : QueryDict -> option PostFields)
        (CommentForm_clean : QueryDict -> option string)
        (UpdateView_dispatch : Request -> DB -> Mutation)
        (request : Request) (now : Z) (db : DB) :
  user request = AnonymousUser ->
  PostCreateView.dispatch PostForm_clean request db
  = ret (HttpResponseRedirect login, db)
  /\ ProfileUpdateView.dispatch UpdateView_dispatch request db
     = ret (HttpResponseRedirect login, db)
  /\ (forall post_id p,
         get_object_or_404 (Post_objects db) (fun q => Post.pk q =? post_id)
         = ret p ->
         CommentCreateView.dispatch CommentForm_clean request post_id now db
         = ret (HttpResponseRedirect login, db)).
Proof.
  intro Hanon.
  unfold PostCreateView.dispatch, ProfileUpdateView.dispatch,
         CommentCreateView.dispatch, LoginRequiredMixin.dispatch.
  rewrite Hanon. simpl is_authenticated. cbv iota.
  repeat split.
  intros post_id p Hget. rewrite Hget. reflexivity.
Qed.

Lemma anonymous_is_sent_to_login_witness :
  let request :=
    mkRequest AnonymousUser POST page_absent [("text", "hello")] in
  PostCreateView.dispatch
    (fun _ => Some (mkPostFields Sample.travel 0 true)) request Sample.db
  = ret (HttpResponseRedirect login, Sample.db).
Proof.
  intro request.
  apply (anonymous_is_sent_to_login
           (fun _ => Some (mkPostFields Sample.travel 0 true))
           (fun _ => Some "hello")
           (fun _ _ => raise PermissionDenied)
           request Sample.now Sample.db eq_refl).
Defined.

(** ** Creating comments and posts *)

Lemma next_pk_above (pks : list Z) (k : Z) : In k pks -> k < next_pk pks.
Proof.
  unfold next_pk.
  induction pks as [|x pks IH]; cbn [In fold_right]; [contradiction|].
  intros [-> | Hin]; [lia|].
  specialize (IH Hin). lia.
Qed.

Lemma next_pk_fresh (pks : list Z) : ~ In (next_pk pks) pks.
Proof. intro H. apply next_pk_above in H. lia. Qed.

Section CommentCreation.
Variable CommentForm_clean : QueryDict -> option string.
Variables (request : Request) (v : User.t) (post_id now : Z) (db : DB).
Variables (p : Post.t) (text : string).
Hypothesis authenticated : user request = AuthUser v.
Hypothesis resolved :
  get_object_or_404 (Post_objects db) (fun q => Post.pk q =? post_id) = ret p.


End CommentCreation.

(** X16.  A GET of the comment form, or a POST the form rejects, renders
    the form (unbound, or bound to what was posted) and writes nothing. *)
Theorem comment_create_without_valid_form
        (CommentForm_clean : QueryDict -> option string)
        (request : Request) (v : User.t) (post_id now : Z) (db : DB)
        (p : Post.t) :
  user request = AuthUser v ->
  get_object_or_404 (Post_objects db) (fun q => Post.pk q =? post_id) = ret p ->
  (method request = GET ->
   CommentCreateView.dispatch CommentForm_clean request post_id now db
   = ret (TemplateResponse CommentCreateView.template_name
            [("form", V_form unbound)], db))
  /\ (method request = POST ->
      CommentForm_clean (POST_data request) = None ->
      CommentCreateView.dispatch CommentForm_clean request post_id now db
      = ret (TemplateResponse CommentCreateView.template_name
               [("form", V_form (bound (POST_data request)))], db)).
Proof.
  intros Huser Hget.
  unfold CommentCreateView.dispatch. rewrite Hget. simpl bind.
  unfold LoginRequiredMixin.dispatch. rewrite Huser. simpl.
  split.
  - intros ->. reflexivity.
  - intros -> Hclean. unfold CommentCreateView.post. rewrite Hclean.
    reflexivity.
Qed.

Lemma comment_create_without_valid_form_witness :
  let request := Sample.as_user (AuthUser Sample.alice) POST page_absent in
  CommentCreateView.dispatch (fun _ => None) request 5 Sample.now Sample.db
  = ret (TemplateResponse CommentCreateView.template_name
           [("form", V_form (bound []))], Sample.db).
Proof.
  intro request.
  apply (proj2 (comment_create_without_valid_form
                  (fun _ => None) request Sample.alice 5 Sample.now Sample.db
                  Sample.bobs_post eq_refl eq_refl));
    reflexivity.
Defined.



Section PostCreation.
Variable PostForm_clean : QueryDict -> option PostFields.
Variables (request : Request) (v : User.t) (db : DB) (fields : PostFields).
Hypothesis authenticated : user request = AuthUser v.
Hypothesis posted : method request = POST.
Hypothesis valid : PostForm_clean (POST_data request) = Some fields.

Lemma post_create_success :
  PostCreateView.dispatch PostForm_clean request db
  = ret (HttpResponseRedirect (blog_profile (User.username v)),
         snd (Post_save db fields v)).
Proof.
  unfold PostCreateView.dispatch, LoginRequiredMixin.dispatch.
  rewrite authenticated, posted. simpl.
  unfold PostCreateView.post. rewrite valid.
  unfold PostCreateView.form_valid. rewrite authenticated. reflexivity.
Qed.

End PostCreation.

(** X19.  A valid post form submitted by [v] appends one post whose author
    is [v], whose other columns are the form's and whose primary key was not
    in use, writes nothing else, and redirects to the profile of [v]; a GET,
    or a POST the form rejects, renders the form and writes nothing. *)
Theorem post_create_stamps_author
        (PostForm_clean : QueryDict -> option PostFields)
        (request : Request) (v : User.t) (db : DB) :
  user request = AuthUser v ->
  (forall fields,
      method request = POST ->
      PostForm_clean (POST_data request) = Some fields ->
      exists np,
        PostCreateView.dispatch PostForm_clean request db
        = ret (HttpResponseRedirect (blog_profile (User.username v)),
               mkDB (User_objects db) (Category_objects db)
                    (Post_objects db ++ [np]) (Comment_objects db))
        /\ Post.author np = v
        /\ Post.category np = f_category fields
        /\ Post.pub_date np = f_pub_date fields
        /\ Post.is_published np = f_is_published fields
        /\ ~ In (Post.pk np) (List.map Post.pk (Post_objects db)))
  /\ (method request = GET ->
      PostCreateView.dispatch PostForm_clean request db
      = ret (TemplateResponse PostCreateView.template_name
               [("form", V_form unbound)], db))
  /\ (method request = POST ->
      PostForm_clean (POST_data request) = None ->
      PostCreateView.dispatch PostForm_clean request db
      = ret (TemplateResponse PostCreateView.template_name
               [("form", V_form (bound (POST_data request)))], db)).
Proof.
  intro Huser. split; [|split].
  - intros fields Hm Hclean.
    exists (fst (Post_save db fields v)). split.
    + apply (post_create_success PostForm_clean request v db fields
                                 Huser Hm Hclean).
    + cbn [Post_save fst Post.author Post.category Post.pub_date
           Post.is_published Post.pk].
      repeat split. apply next_pk_fresh.
  - intro Hm.
    unfold PostCreateView.dispatch, LoginRequiredMixin.dispatch.
    rewrite Huser, Hm. reflexivity.
  - intros Hm Hclean.
    unfold PostCreateView.dispatch, LoginRequiredMixin.dispatch.
    rewrite Huser, Hm. simpl.
    unfold PostCreateView.post. rewrite Hclean. reflexivity.
Qed.

Lemma post_create_stamps_author_witness :
  let clean : QueryDict -> option PostFields :=
    fun _ => Some (mkPostFields Sample.hidden 900 false) in
  let request := Sample.as_user (AuthUser Sample.bob) POST page_absent in
  exists np,
    PostCreateView.dispatch clean request Sample.db
    = ret (HttpResponseRedirect (blog_profile "bob"),
           mkDB (User_objects Sample.db) (Category_objects Sample.db)
                (Post_objects Sample.db ++ [np]) (Comment_objects Sample.db))
    /\ Post.author np = Sample.bob.
Proof.
  intros clean request.
  destruct (proj1 (post_create_stamps_author clean request Sample.bob Sample.db
                                             eq_refl)
                  (mkPostFields Sample.hidden 900 false) eq_refl eq_refl)
    as [np [H1 [H2 _]]].
  exists np. auto.
Defined.



(** X21.  [CommentCreateView.get_object] looks a comment up by the [pk]
    keyword argument when it is present and not zero, by [comment_id]
    otherwise, and raises [Http404] when the key it would use is missing:
    so on a route that passes [post_id] alone. *)
Theorem comment_create_get_object (kwargs : list (string * Z)) (db : DB) :
  (forall n, CommentCreateView.kwargs_get kwargs "pk" = Some n -> n <> 0 ->
             CommentCreateView.get_object kwargs db
             = CommentUpdateView.get_object n db)
  /\ (CommentCreateView.kwargs_get kwargs "pk" = None
      \/ CommentCreateView.kwargs_get kwargs "pk" = Some 0 ->
      (forall n, CommentCreateView.kwargs_get kwargs "comment_id" = Some n ->
                 CommentCreateView.get_object kwargs db
                 = CommentUpdateView.get_object n db)
      /\ (CommentCreateView.kwargs_get kwargs "comment_id" = None ->
          CommentCreateView.get_object kwargs db = raise Http404))
  /\ (forall post_id,
         CommentCreateView.get_object [("post_id", post_id)] db = raise Http404).
Proof.
  unfold CommentCreateView.get_object, CommentUpdateView.get_object.
  split; [|split].
  - intros n Hpk Hn. rewrite Hpk. unfold CommentCreateView.py_or.
    apply Z.eqb_neq in Hn. rewrite Hn. reflexivity.
  - intros Hpk.
    assert (Hor : CommentCreateView.py_or
                    (CommentCreateView.kwargs_get kwargs "pk")
                    (CommentCreateView.kwargs_get kwargs "comment_id")
                  = CommentCreateView.kwargs_get kwargs "comment_id").
    { destruct Hpk as [-> | ->]; reflexivity. }
    rewrite Hor. split.
    + intros n ->. reflexivity.
    + intros ->. apply get_object_or_404_absent. reflexivity.
  - intro post_id. apply get_object_or_404_absent. reflexivity.
Qed.

Lemma comment_create_get_object_witness :
  CommentCreateView.get_object [("pk", 0); ("comment_id", 1)] Sample.db
  = ret Sample.first_comment
  /\ CommentCreateView.get_object [("pk", 0)] Sample.db = raise Http404.
Proof.
  destruct (proj1 (proj2 (comment_create_get_object
                            [("pk", 0); ("comment_id", 1)] Sample.db))
                  (or_intror eq_refl)) as [Hid _].
  destruct (proj1 (proj2 (comment_create_get_object [("pk", 0)] Sample.db))
                  (or_intror eq_refl)) as [_ Hnone].
  split.
  - rewrite (Hid 1 eq_refl). reflexivity.
  - apply Hnone. reflexivity.
Defined.

(** ** Pages *)

Section Pages.
Variable queryset : QuerySet.

Lemma firstn_add_skipn {A : Type} (a b : nat) (l : list A) :
  List.firstn (a + b) l = (List.firstn a l ++ List.firstn b (List.skipn a l))%list.
Proof.
  revert l. induction a as [|a IH]; intro l; [reflexivity|].
  destruct l as [|x l]; simpl.
  - rewrite firstn_nil. reflexivity.
  - rewrite IH. reflexivity.
Qed.

Lemma chunks_concat {A : Type} (l : list A) (k : nat) :
  List.flat_map (fun i => List.firstn 10 (List.skipn (10 * i) l)) (List.seq 0 k)
  = List.firstn (10 * k) l.
Proof.
  induction k as [|k IH]; [reflexivity|].
  rewrite seq_S, flat_map_app, IH. cbn [flat_map Nat.add].
  rewrite app_nil_r.
  replace (10 * S k)%nat with (10 * k + 10)%nat by lia.
  symmetry. apply firstn_add_skipn.
Qed.

Lemma num_pages_bounds :
  1 <= Paginator.num_pages queryset PostListView.paginate_by
  /\ Z.of_nat (List.length queryset)
     <= 10 * Paginator.num_pages queryset PostListView.paginate_by.
Proof.
  unfold Paginator.num_pages, Paginator.count, PostListView.paginate_by.
  split; Z.to_euclidean_division_equations; lia.
Qed.

Lemma page_in_range (n : Z) :
  1 <= n <= Paginator.num_pages queryset PostListView.paginate_by ->
  Paginator.page queryset PostListView.paginate_by n
  = Some (mkPage (List.firstn 10 (List.skipn (10 * (Z.to_nat n - 1)) queryset))
                 n).
Proof.
  intros [H1 H2].
  destruct (Paginator.page queryset PostListView.paginate_by n) as [pg|] eqn:Hpg.
  - destruct (page_object_list queryset n pg Hpg) as [_ [Hnum Hlist]].
    destruct pg as [l k]. simpl in *. subst. reflexivity.
  - exfalso. unfold Paginator.page in Hpg.
    destruct (Z.ltb_spec n 1); [lia|].
    destruct (Z.ltb_spec (Paginator.num_pages queryset PostListView.paginate_by) n);
      [lia | discriminate].
Qed.

Lemma page_out_of_range (n : Z) :
  n < 1 \/ Paginator.num_pages queryset PostListView.paginate_by < n ->
  Paginator.page queryset PostListView.paginate_by n = None.
Proof.
  intro H. unfold Paginator.page.
  destruct (Z.ltb_spec n 1); [reflexivity|].
  destruct (Z.ltb_spec (Paginator.num_pages queryset PostListView.paginate_by) n);
    [reflexivity | lia].
Qed.
End Pages.

(** X22.  The pages of a listing, taken in order from 1 to the number of
    pages, hold every row of the listing once and in the listing's order. *)
Theorem pages_cover_listing (queryset : QuerySet) :
  let pages :=
    Z.to_nat (Paginator.num_pages queryset PostListView.paginate_by) in
  List.flat_map
    (fun k =>
       match Paginator.page queryset PostListView.paginate_by (Z.of_nat k) with
       | Some pg => object_list pg
       | None => []
       end)
    (List.seq 1 pages)
  = queryset
  /\ forall k, (1 <= k <= pages)%nat ->
               Paginator.page queryset PostListView.paginate_by (Z.of_nat k)
               <> None.
Proof.
  intro pages.
  destruct (num_pages_bounds queryset) as [Hone Hlen].
  assert (Hpage : forall k, (1 <= k <= pages)%nat ->
            Paginator.page queryset PostListView.paginate_by (Z.of_nat k)
            = Some (mkPage (List.firstn 10 (List.skipn (10 * (k - 1)) queryset))
                           (Z.of_nat k))).
  { intros k Hk. rewrite page_in_range by (subst pages; lia).
    rewrite Nat2Z.id. reflexivity. }
  split.
  - rewrite <- seq_shift, flat_map_concat_map, map_map, <- flat_map_concat_map.
    transitivity
      (List.flat_map
         (fun i => List.firstn 10 (List.skipn (10 * i) queryset))
         (List.seq 0 pages)).
    + rewrite !flat_map_concat_map. f_equal.
      apply map_ext_in. intros i Hi. apply in_seq in Hi.
      rewrite Hpage by lia. simpl.
      replace (i - 0)%nat with i by lia. reflexivity.
    + rewrite chunks_concat. apply firstn_all2. subst pages. lia.
  - intros k Hk. rewrite Hpage by exact Hk. discriminate.
Qed.

Lemma pages_cover_listing_witness :
  let listing :=
    PostListView.get_queryset (Sample.as_user AnonymousUser GET page_absent)
                              Sample.now Sample.big_db in
  Paginator.page listing PostListView.paginate_by 3 <> None.
Proof.
  intro listing.
  apply (proj2 (pages_cover_listing listing) 3%nat).
  vm_compute. split; repeat constructor.
Defined.

(** ** What the listing routes render *)

Section ListingPages.
Variables (request : Request) (queryset : QuerySet).

Lemma page_count_num_pages :
  Paginator.num_pages queryset PostListView.paginate_by = page_count queryset.
Proof.
  unfold Paginator.num_pages, Paginator.count, PostListView.paginate_by,
         page_count.
  f_equal. lia.
Qed.

Lemma context_of_page (n : Z) :
  1 <= n <= page_count queryset ->
  (pg <- match Paginator.page queryset PostListView.paginate_by n with
         | Some pg => ret pg
         | None => raise Http404
         end ;;
   ret [("page_obj", V_page pg);
        ("is_paginated",
         V_bool (MultipleObjectMixin.has_other_pages
                   queryset PostListView.paginate_by pg));
        ("object_list", V_posts (object_list pg))])
  = ret (page_context queryset n).
Proof.
  intro Hn. rewrite page_in_range by (rewrite page_count_num_pages; exact Hn).
  unfold page_context, page_rows, MultipleObjectMixin.has_other_pages.
  rewrite page_count_num_pages. reflexivity.
Qed.

(** The context of a list view, read off the page the request asks for. *)
Lemma get_context_data_requested :
  PostListView.get_context_data request queryset
  = match requested_page (GET_page request) queryset with
    | Some n => ret (page_context queryset n)
    | None => raise Http404
    end.
Proof.
  pose proof (num_pages_bounds queryset) as [Hone _].
  rewrite page_count_num_pages in Hone.
  unfold PostListView.get_context_data, MultipleObjectMixin.get_context_data,
         MultipleObjectMixin.paginate_queryset, requested_page.
  destruct (GET_page request) as [|n| |].
  - simpl bind at 2. apply context_of_page. lia.
  - simpl bind at 2.
    destruct (Z.leb_spec 1 n) as [H1|H1];
      [destruct (Z.leb_spec n (page_count queryset)) as [H2|H2]|]; simpl andb.
    + apply context_of_page. lia.
    + rewrite page_out_of_range
        by (rewrite page_count_num_pages; right; exact H2).
      reflexivity.
    + rewrite page_out_of_range by (left; exact H1). reflexivity.
  - simpl bind at 2. rewrite page_count_num_pages.
    apply context_of_page. lia.
  - reflexivity.
Qed.

Lemma requested_page_in_range (n : Z) :
  GET_page request = page_int n ->
  1 <= n <= page_count queryset ->
  requested_page (GET_page request) queryset = Some n.
Proof.
  intros -> [H1 H2]. unfold requested_page.
  apply Z.leb_le in H1, H2. rewrite H1, H2. reflexivity.
Qed.
End ListingPages.

Section ListingRoutes.
Variables (request : Request) (category_slug username : string).
Variables (now now' : Z) (db : DB).
Hypothesis is_get : method request = GET.

Lemma PostListView_dispatch_requested :
  PostListView.dispatch request now db
  = match requested_page (GET_page request)
                         (PostListView.get_queryset request now db) with
    | Some n =>
        ret (TemplateResponse PostListView.template_name
               (page_context (PostListView.get_queryset request now db) n))
    | None => raise Http404
    end.
Proof.
  unfold PostListView.dispatch, ListView.dispatch. rewrite is_get.
  rewrite get_context_data_requested.
  destruct (requested_page _ _); reflexivity.
Qed.

Lemma HomePageView_dispatch_requested :
  HomePageView.dispatch request now now' db
  = match requested_page (GET_page request)
                         (HomePageView.get_queryset request now now' db) with
    | Some n =>
        ret (TemplateResponse HomePageView.template_name
               (page_context (HomePageView.get_queryset request now now' db) n))
    | None => raise Http404
    end.
Proof.
  unfold HomePageView.dispatch, ListView.dispatch. rewrite is_get.
  rewrite get_context_data_requested.
  destruct (requested_page _ _); reflexivity.
Qed.

Lemma CategoryView_dispatch_requested :
  CategoryView.dispatch request category_slug now now' db
  = match requested_page
            (GET_page request)
            (CategoryView.get_queryset request category_slug now now' db) with
    | Some n =>
        category <-
          get_object_or_404 (Category_objects db)
            (fun c => String.eqb (Category.slug c) category_slug
                      && Bool.eqb (Category.is_published c) true) ;;
        ret (TemplateResponse CategoryView.template_name
               (ctx_set "category" (V_category category)
                  (page_context
                     (CategoryView.get_queryset request category_slug
                                                now now' db) n)))
    | None => raise Http404
    end.
Proof.
  unfold CategoryView.dispatch, ListView.dispatch. rewrite is_get.
  unfold CategoryView.get_context_data.
  rewrite get_context_data_requested.
  destruct (requested_page _ _); [|reflexivity].
  simpl bind at 2.
  destruct (get_object_or_404 _ _); reflexivity.
Qed.

Lemma ProfileView_dispatch_requested :
  ProfileView.dispatch request username now db
  = match requested_page (GET_page request)
                         (ProfileView.get_queryset request username now db) with
    | Some n =>
        profile <-
          get_object_or_404 (User_objects db)
            (fun u => String.eqb (User.username u) username) ;;
        ret (TemplateResponse ProfileView.template_name
               (ctx_set "profile" (V_user profile)
                  (page_context
                     (ProfileView.get_queryset request username now db) n)))
    | None => raise Http404
    end.
Proof.
  unfold ProfileView.dispatch, ListView.dispatch. rewrite is_get.
  unfold ProfileView.get_context_data.
  rewrite get_context_data_requested.
  destruct (requested_page _ _); [|reflexivity].
  simpl bind at 2.
  destruct (get_object_or_404 _ _); reflexivity.
Qed.
End ListingRoutes.

(** C6.  Each listing route (base, home, category, profile) lists its
    visible posts - the posts the viewer may see, narrowed as the route
    narrows them - once each and in descending order of [pub_date]; a GET
    for page [n] of a route renders rows 10(n-1)+1 to 10n of that route's
    listing, and nothing else; and a listing of 25 rows has three pages,
    page 1 being rows 1-10, the ten latest, and page 3 rows 21-25. *)
Theorem listings_ordered_and_paginated
        (request : Request) (category_slug username : string)
        (now now' : Z) (db : DB) :
  let visible :=
    get_visible_posts (get_annotated_posts db (Post_objects db))
                      (Some (user request)) now in
  let base := PostListView.get_queryset request now db in
  let home := HomePageView.get_queryset request now now' db in
  let category :=
    CategoryView.get_queryset request category_slug now now' db in
  let profile := ProfileView.get_queryset request username now db in
  (Permutation visible base
   /\ Permutation
        (QS.filter_kw [Lookup.pub_date__lte now'; Lookup.is_published true;
                       Lookup.category__is_published true] visible) home
   /\ Permutation
        (QS.filter_kw [Lookup.pub_date__lte now'; Lookup.is_published true;
                       Lookup.category__slug category_slug] visible) category
   /\ Permutation
        (QS.filter_kw [Lookup.author__username username] visible) profile)
  /\ ((forall p, In p home <-> In p visible /\ public_at now' p)
      /\ (forall p, In p category
                    <-> In p visible
                        /\ Post.pub_date p <= now'
                        /\ Post.is_published p = true
                        /\ Category.slug (Post.category p) = category_slug)
      /\ (forall p, In p profile
                    <-> In p visible
                        /\ User.username (Post.author p) = username))
  /\ (pub_date_desc base /\ pub_date_desc home
      /\ pub_date_desc category /\ pub_date_desc profile)
  /\ (forall n,
         method request = GET -> GET_page request = page_int n ->
         (1 <= n <= page_count base ->
          PostListView.dispatch request now db
          = ret (TemplateResponse PostListView.template_name
                   (page_context base n)))
         /\ (1 <= n <= page_count home ->
             HomePageView.dispatch request now now' db
             = ret (TemplateResponse HomePageView.template_name
                      (page_context home n)))
         /\ (forall c,
                1 <= n <= page_count category ->
                get_object_or_404 (Category_objects db)
                  (fun c => String.eqb (Category.slug c) category_slug
                            && Bool.eqb (Category.is_published c) true)
                = ret c ->
                CategoryView.dispatch request category_slug now now' db
                = ret (TemplateResponse CategoryView.template_name
                         (ctx_set "category" (V_category c)
                                  (page_context category n))))
         /\ (forall u,
                1 <= n <= page_count profile ->
                get_object_or_404 (User_objects db)
                  (fun u => String.eqb (User.username u) username)
                = ret u ->
                ProfileView.dispatch request username now db
                = ret (TemplateResponse ProfileView.template_name
                         (ctx_set "profile" (V_user u)
                                  (page_context profile n)))))
  /\ (forall rows,
         In rows [base; home; category; profile] ->
         List.length rows = 25%nat ->
         page_count rows = 3
         /\ page_rows rows 1 = List.firstn 10 rows
         /\ List.length (page_rows rows 1) = 10%nat
         /\ page_rows rows 3 = List.skipn 20 rows
         /\ List.length (page_rows rows 3) = 5%nat
         /\ (forall p q,
                In p (page_rows rows 1) -> In q (List.skipn 10 rows) ->
                Post.pub_date q <= Post.pub_date p)).
Proof.
  intros visible base home category profile.
  assert (Hnarrow : forall kw,
             Permutation (QS.filter_kw kw visible) (QS.filter_kw kw base)).
  { intro kw. subst base. unfold PostListView.get_queryset, QS.filter_kw.
    rewrite filter_order_by. apply order_by_Permutation. }
  split; [|split; [|split; [|split]]].
  - split; [apply order_by_Permutation|].
    split; [|split]; apply Hnarrow.
  - split; [|split]; intro p.
    + subst home. rewrite in_HomePageView_queryset.
      unfold PostListView.get_queryset. rewrite in_order_by. reflexivity.
    + subst category. rewrite in_CategoryView_queryset.
      unfold PostListView.get_queryset. rewrite in_order_by. reflexivity.
    + subst profile. rewrite in_ProfileView_queryset.
      unfold PostListView.get_queryset. rewrite in_order_by. reflexivity.
  - repeat split;
      apply (listing_sorted request category_slug username now now' db);
      simpl; tauto.
  - intros n Hget Hpage. clear Hnarrow.
    subst visible base home category profile.
    split; [|split; [|split]].
    + intro Hn. rewrite PostListView_dispatch_requested by exact Hget.
      rewrite (requested_page_in_range request _ n Hpage Hn). reflexivity.
    + intro Hn. rewrite HomePageView_dispatch_requested by exact Hget.
      rewrite (requested_page_in_range request _ n Hpage Hn). reflexivity.
    + intros c Hn Hc. rewrite CategoryView_dispatch_requested by exact Hget.
      rewrite (requested_page_in_range request _ n Hpage Hn).
      rewrite Hc. reflexivity.
    + intros u Hn Hu. rewrite ProfileView_dispatch_requested by exact Hget.
      rewrite (requested_page_in_range request _ n Hpage Hn).
      rewrite Hu. reflexivity.
  - intros rows Hroute Hlen.
    assert (Hsorted : pub_date_desc rows)
      by (apply (listing_sorted request category_slug username now now' db);
          exact Hroute).
    assert (H3 : page_rows rows 3 = List.skipn 20 rows).
    { unfold page_rows.
      change (10 * (Z.to_nat 3 - 1))%nat with 20%nat.
      apply firstn_all2. rewrite length_skipn, Hlen. apply le_S, le_S, le_S.
      apply le_S, le_S, le_n. }
    assert (H1 : page_rows rows 1 = List.firstn 10 rows) by reflexivity.
    split; [unfold page_count; rewrite Hlen; reflexivity|].
    split; [exact H1|].
    split; [rewrite H1, length_firstn, Hlen; reflexivity|].
    split; [exact H3|].
    split; [rewrite H3, length_skipn, Hlen; reflexivity|].
    rewrite H1. apply sorted_app_le. rewrite firstn_skipn. exact Hsorted.
Qed.

Lemma listings_ordered_and_paginated_witness :
  let request := Sample.as_user AnonymousUser GET (page_int 3) in
  let listing :=
    HomePageView.get_queryset request Sample.now Sample.now Sample.big_db in
  HomePageView.dispatch request Sample.now Sample.now Sample.big_db
  = ret (TemplateResponse "blog/index.html" (page_context listing 3))
  /\ List.map Post.pub_date (page_rows listing 3) = [5; 4; 3; 2; 1]
  /\ List.map Post.pub_date (page_rows listing 1)
     = [25; 24; 23; 22; 21; 20; 19; 18; 17; 16].
Proof.
  intros request listing.
  destruct (listings_ordered_and_paginated
              request "travel" "alice" Sample.now Sample.now Sample.big_db)
    as [_ [_ [_ [Hpages _]]]].
  destruct (Hpages 3 eq_refl eq_refl) as [_ [Hhome _]].
  split; [|split; vm_compute; reflexivity].
  apply Hhome.
  assert (Hcount : page_count listing = 3) by (vm_compute; reflexivity).
  fold listing. rewrite Hcount. lia.
Defined.

(** X23.  How the listing routes read the [page] parameter of a GET: no
    parameter asks for page 1, which exists even for an empty listing; a
    number asks for that page if the route's listing has it; [last] asks
    for the final page; anything else, and a number outside the pages, ends
    in [Http404].  The page asked for is rendered from the route's own
    listing; the category and profile routes then look their category or
    user up, and the error of that lookup, if any, is the response. *)
Theorem listing_page_parameter
        (request : Request) (category_slug username : string)
        (now now' : Z) (db : DB) :
  method request = GET ->
  let home := HomePageView.get_queryset request now now' db in
  let category :=
    CategoryView.get_queryset request category_slug now now' db in
  let profile := ProfileView.get_queryset request username now db in
  HomePageView.dispatch request now now' db
  = match requested_page (GET_page request) home with
    | Some n =>
        ret (TemplateResponse HomePageView.template_name (page_context home n))
    | None => raise Http404
    end
  /\ CategoryView.dispatch request category_slug now now' db
     = match requested_page (GET_page request) category with
       | Some n =>
           match get_object_or_404 (Category_objects db)
                   (fun c => String.eqb (Category.slug c) category_slug
                             && Bool.eqb (Category.is_published c) true) with
           | inr c =>
               ret (TemplateResponse CategoryView.template_name
                      (ctx_set "category" (V_category c)
                               (page_context category n)))
           | inl e => raise e
           end
       | None => raise Http404
       end
  /\ ProfileView.dispatch request username now db
     = match requested_page (GET_page request) profile with
       | Some n =>
           match get_object_or_404 (User_objects db)
                   (fun u => String.eqb (User.username u) username) with
           | inr u =>
               ret (TemplateResponse ProfileView.template_name
                      (ctx_set "profile" (V_user u) (page_context profile n)))
           | inl e => raise e
           end
       | None => raise Http404
       end
  /\ (GET_page request = page_absent ->
      HomePageView.dispatch request now now' db
      = ret (TemplateResponse HomePageView.template_name (page_context home 1))
      /\ page_rows home 1 = List.firstn 10 home)
  /\ (GET_page request = page_last ->
      HomePageView.dispatch request now now' db
      = ret (TemplateResponse HomePageView.template_name
               (page_context home (page_count home)))
      /\ page_rows home (page_count home)
         = List.skipn (10 * (Z.to_nat (page_count home) - 1)) home)
  /\ (GET_page request = page_other ->
      HomePageView.dispatch request now now' db = raise Http404
      /\ CategoryView.dispatch request category_slug now now' db
         = raise Http404
      /\ ProfileView.dispatch request username now db = raise Http404)
  /\ (forall n,
         GET_page request = page_int n ->
         (n < 1 \/ page_count home < n ->
          HomePageView.dispatch request now now' db = raise Http404)
         /\ (n < 1 \/ page_count category < n ->
             CategoryView.dispatch request category_slug now now' db
             = raise Http404)
         /\ (n < 1 \/ page_count profile < n ->
             ProfileView.dispatch request username now db = raise Http404)).
Proof.
  intros Hget home category profile.
  assert (Hout : forall rows n,
             n < 1 \/ page_count rows < n ->
             requested_page (page_int n) rows = None).
  { intros rows n Hn. unfold requested_page.
    destruct (Z.leb_spec 1 n); [|reflexivity].
    destruct (Z.leb_spec n (page_count rows)); [lia | reflexivity]. }
  assert (Hhome := HomePageView_dispatch_requested request now now' db Hget).
  assert (Hcat := CategoryView_dispatch_requested request category_slug
                                                  now now' db Hget).
  assert (Hprof := ProfileView_dispatch_requested request username now db Hget).
  fold home in Hhome. fold category in Hcat. fold profile in Hprof.
  split; [exact Hhome|].
  split.
  { rewrite Hcat. destruct (requested_page _ _); [|reflexivity].
    destruct (get_object_or_404 _ _); reflexivity. }
  split.
  { rewrite Hprof. destruct (requested_page _ _); [|reflexivity].
    destruct (get_object_or_404 _ _); reflexivity. }
  split; [|split; [|split]].
  - intro Hpage. rewrite Hhome, Hpage. split; reflexivity.
  - intro Hpage. rewrite Hhome, Hpage. split; [reflexivity|].
    pose proof (num_pages_bounds home) as [Hone Hlen].
    rewrite page_count_num_pages in Hone, Hlen.
    unfold page_rows. apply firstn_all2. rewrite length_skipn. lia.
  - intro Hpage. rewrite Hhome, Hcat, Hprof, Hpage. repeat split.
  - intros n Hpage. rewrite Hhome, Hcat, Hprof, Hpage.
    repeat split; intro Hn; rewrite (Hout _ n Hn); reflexivity.
Qed.

Lemma listing_page_parameter_witness :
  HomePageView.dispatch (Sample.as_user AnonymousUser GET (page_int 4))
                        Sample.now Sample.now Sample.big_db
  = raise Http404
  /\ HomePageView.dispatch (Sample.as_user AnonymousUser GET page_last)
                           Sample.now Sample.now Sample.big_db
     = HomePageView.dispatch (Sample.as_user AnonymousUser GET (page_int 3))
                             Sample.now Sample.now Sample.big_db
  /\ HomePageView.dispatch (Sample.as_user AnonymousUser GET page_absent)
                           Sample.now Sample.now (mkDB [] [] [] [])
     = ret (TemplateResponse "blog/index.html"
              [("page_obj", V_page (mkPage [] 1));
               ("is_paginated", V_bool false);
               ("object_list", V_posts [])]).
Proof.
  split; [|split].
  - rewrite (proj1 (listing_page_parameter
                      (Sample.as_user AnonymousUser GET (page_int 4))
                      "travel" "alice" Sample.now Sample.now Sample.big_db
                      eq_refl)).
    vm_compute. reflexivity.
  - rewrite (proj1 (listing_page_parameter
                      (Sample.as_user AnonymousUser GET page_last)
                      "travel" "alice" Sample.now Sample.now Sample.big_db
                      eq_refl)).
    vm_compute. reflexivity.
  - rewrite (proj1 (listing_page_parameter
                      (Sample.as_user AnonymousUser GET page_absent)
                      "travel" "alice" Sample.now Sample.now
                      (mkDB [] [] [] []) eq_refl)).
    vm_compute. reflexivity.
Defined.
